(** * Daily feature extractor ([data_fetcher.py]): model and verification

    A shallow embedding of [DataFetcher]: the lazily created shared
    connection, the per-day loop of [fetch_data], the feature assembly of
    [fetch_x_data], the label computation of [fetch_label] and the two time
    helpers.

    Modelling conventions.
    - Time is counted in microseconds, the resolution of Python's [datetime].
      A naive [datetime] is the number of microseconds of wall-clock time
      since 1970-01-01T00:00:00 (local); a unix timestamp is the number of
      microseconds since the epoch.  [timestamp] gives the exact instant;
      the double that Python's [timestamp()] returns for it is
      [timestamp_float].  The statements compare the exact instants with
      the [timestamp] column of the tables, held in the same unit: the
      rounding of the doubles is not carried into the comparisons.
    - The range of [datetime] (years 1 to 9999) is not modelled.
    - SQL numbers are exact rationals, [NULL] is [None]; the rounding of
      MySQL's DECIMAL division is not modelled.
    - The store answers every well-formed statement: [pymysql.connect] and
      [cursor.execute] fail only where the program's own arguments are
      wrong (a missing port, a wrong number of parameters).
    - [datetime.now()] reads the field [now] of the world; the program
      never writes it, so one call runs at one reading of the clock, and
      time passes between calls. *)

From Stdlib Require Import ZArith QArith Lia Lqa Ascii.
From Corelib Require PrimFloat.
From stdpp Require Import base option list sorting strings gmap fin_maps.

Local Open Scope Z_scope.

(** ** Time *)

Definition SECOND : Z := 1000000.
Definition HOUR : Z := 3600 * SECOND.
Definition DAY : Z := 24 * HOUR.

(** [timedelta(days=k)] *)
Definition timedelta (days : Z) : Z := days * DAY.

(** The process's local time zone: how a naive local [datetime] becomes a
    unix timestamp ([datetime.timestamp()]) and back
    ([datetime.fromtimestamp(ts)]). *)
Record TimeZone := {
  timestamp : Z -> Z;
  fromtimestamp : Z -> Z
}.

(** The offset from UTC that a zone gives a naive local datetime. *)
Definition utcoffset (tz : TimeZone) (dt : Z) : Z := dt - timestamp tz dt.

(** A zone with one fixed offset from UTC (UTC itself is [fixed_zone 0]). *)
Definition fixed_zone (utcoffset : Z) : TimeZone :=
  {| timestamp := fun dt => dt - utcoffset;
     fromtimestamp := fun ts => ts + utcoffset |}.


(** [dt.hour] and [dt.weekday()] of a naive datetime; 1970-01-01 was a
    Thursday (3). *)
Definition hour (dt : Z) : Z := (dt / HOUR) mod 24.
Definition weekday (dt : Z) : Z := (dt / DAY + 3) mod 7.




(** ** Python values, rows and feature records *)

(** [None], an [int], a [Decimal] (what pymysql gives for a DECIMAL
    column or expression) and a [str]. *)
Inductive value :=
| VNone
| VInt (n : Z)
| VNum (q : Q)
| VStr (s : string).

(** A [dict] with string keys: a row of a [DictCursor], a feature record. *)
Abbreviation dict := (gmap string value).

(** What a cursor hands to a processing function: the list of [fetchall()]
    or the row (or [None]) of [fetchone()]. *)
Inductive query_result :=
| FetchAll (rows : list dict)
| FetchOne (row : option dict).

Inductive exn :=
| Exception (msg : string)
| TypeError (msg : string)
| ValueError (msg : string)
| KeyError (key : string)
| AttributeError (msg : string).

Inductive outcome (A : Type) :=
| Return (a : A)
| Raise (e : exn).
Arguments Return {A} a.
Arguments Raise {A} e.

(** ** The store: the tables and columns the statements read *)

Record SlackType := {
  slack_timestamp : Z;
  channel_name : option string
}.

Record SlackReactionType := {
  reaction_timestamp : Z;
  reaction : string;
  positive_ratio : option Q;
  neutral_ratio : option Q;
  negative_ratio : option Q
}.

Record GithubType := { github_timestamp : Z }.

Record EventRatingType := {
  event_timestamp : Z;
  event_button : option Q
}.

Record DayRatingType := {
  day_timestamp : Z;
  day_button : option Q
}.

Record YrType := {
  yr_timestamp : Z;
  temperature : option Q;
  precipitation : option Q
}.

Record database := {
  Slack : list SlackType;
  SlackReaction : list SlackReactionType;
  Github : list GithubType;
  EventRating : list EventRatingType;
  DayRating : list DayRatingType;
  Yr : list YrType
}.

(** ** SQL expressions *)

Module Sql.

(** [`timestamp`>%s AND `timestamp`<%s] *)
Definition in_window (lo hi ts : Z) : bool := (lo <? ts) && (ts <? hi).

(** [sum(c)]: [NULL] when no row has a value. *)
Definition sum (l : list (option Q)) : option Q :=
  match omap id l with
  | [] => None
  | v :: vs => Some (foldl Qplus v vs)
  end.

(** [count(c)]: the rows whose [c] is not [NULL]. *)
Definition count {A} (l : list (option A)) : Z := Z.of_nat (length (omap id l)).

(** [count( * )] *)
Definition count_rows {A} (l : list A) : Z := Z.of_nat (length l).

(** [a / b]: [NULL] when either side is, and when [b] is 0. *)
Definition div (a b : option Q) : option Q :=
  match a, b with
  | Some x, Some y => if Qeq_bool y 0 then None else Some (x / y)%Q
  | _, _ => None
  end.

Definition mul (a b : option Q) : option Q :=
  match a, b with
  | Some x, Some y => Some (x * y)%Q
  | _, _ => None
  end.

Definition add (a b : option Q) : option Q :=
  match a, b with
  | Some x, Some y => Some (x + y)%Q
  | _, _ => None
  end.

Definition num (n : Z) : option Q := Some (inject_Z n).

(** A column value as pymysql returns it. *)
Definition decimal (o : option Q) : value :=
  match o with Some q => VNum q | None => VNone end.

(** The seven statements of the program, by the name of the variable that
    holds their text.  [day_rating_sql] is the statement of [fetch_label]
    (a local also called [event_rating_sql] there).

    - [slack_sql] (line 106):
      SELECT `timestamp` FROM `SlackType`
      WHERE `timestamp`>%s AND `timestamp` <%s
    - [slack_reactions_sql] (lines 109-112):
      SELECT `reaction`, count( * ) AS `count`, `positive_ratio`,
      `neutral_ratio`, `negative_ratio` FROM `SlackReactionType`
      WHERE `timestamp`>%s AND `timestamp` <%s AND `positive_ratio` IS NOT NULL
      GROUP BY `reaction`
    - [github_sql] (lines 115-116):
      SELECT COUNT( * ) AS `count` FROM `GithubType`
      WHERE `timestamp`>%s AND `timestamp` <%s
    - [event_rating_sql] (lines 121-122):
      SELECT (sum(button) / count(button))*1000 AS `ratio`
      FROM `EventRatingType` WHERE `timestamp`>%s AND `timestamp`<%s
    - [yr_sql] (lines 128-130):
      SELECT 10 * (sum(`temperature`)/count(`temperature`)) AS `temp`,
      100 * (sum(`precipitation`)/count(`precipitation`)) AS `prec`
      FROM `YrType` WHERE `timestamp`>%s AND `timestamp`<%s
    - [negative_slack_sql] (lines 136-144):
      SELECT 1000 * (count( * ) / `all`.`total_size`) AS `ratio`
      FROM `SlackType`
      JOIN (SELECT count( * ) AS `total_size` FROM `SlackType`
            WHERE `timestamp`>%s AND `timestamp`<%s) `all`
      WHERE (`channel_name` IN ("rant", "ubw")
             AND `timestamp`>%s AND `timestamp`<%s)
    - [day_rating_sql] (lines 169-170):
      select (((sum(button) / count(button)) + 1) / 2) as `ratio`
      from `DayRatingType` where `timestamp`>%s and `timestamp`<%s *)
Inductive statement :=
| slack_sql
| slack_reactions_sql
| github_sql
| event_rating_sql
| yr_sql
| negative_slack_sql
| day_rating_sql.

(** The number of [%s] in each statement. *)
Definition placeholders (q : statement) : nat :=
  match q with
  | negative_slack_sql => 4
  | _ => 2
  end.

(** [GROUP BY `reaction`]: one group per reaction, in the order of first
    appearance, with the first row of the group standing for its
    non-aggregated columns and [count( * )] beside it. *)
Fixpoint add_to_group (r : SlackReactionType)
    (groups : list (SlackReactionType * Z)) : list (SlackReactionType * Z) :=
  match groups with
  | [] => [(r, 1)]
  | (g, n) :: rest =>
      if String.eqb (reaction g) (reaction r) then (g, n + 1) :: rest
      else (g, n) :: add_to_group r rest
  end.

Definition group_by_reaction (rows : list SlackReactionType)
    : list (SlackReactionType * Z) :=
  foldl (fun groups r => add_to_group r groups) [] rows.

(** [`channel_name` IN ("rant", "ubw")] *)
Definition negative_channel (r : SlackType) : bool :=
  match channel_name r with
  | Some c => String.eqb c "rant" || String.eqb c "ubw"
  | None => false
  end.

(** The two windows of [negative_slack_sql]: the first two parameters scope
    the sub-select that counts every message ([total_size], the
    denominator), the last two scope the outer [WHERE] (the numerator). *)
Definition negative_windows (params : list Z) : option ((Z * Z) * (Z * Z)) :=
  match params with
  | [p1; p2; p3; p4] => Some ((p1, p2), (p3, p4))
  | _ => None
  end.

Definition negative_denominator_rows (db : database) (w : Z * Z) : list SlackType :=
  List.filter (fun r => in_window (fst w) (snd w) (slack_timestamp r)) (Slack db).

Definition negative_numerator_rows (db : database) (w : Z * Z) : list SlackType :=
  List.filter (fun r => negative_channel r && in_window (fst w) (snd w) (slack_timestamp r))
    (Slack db).

(** The rows a statement selects, by table. *)
Definition slack_rows (db : database) (lo hi : Z) : list SlackType :=
  List.filter (fun r => in_window lo hi (slack_timestamp r)) (Slack db).

Definition reaction_rows (db : database) (lo hi : Z) : list SlackReactionType :=
  List.filter (fun r => in_window lo hi (reaction_timestamp r)
                        && bool_decide (is_Some (positive_ratio r)))
    (SlackReaction db).

Definition github_rows (db : database) (lo hi : Z) : list GithubType :=
  List.filter (fun r => in_window lo hi (github_timestamp r)) (Github db).

Definition event_rating_rows (db : database) (lo hi : Z) : list EventRatingType :=
  List.filter (fun r => in_window lo hi (event_timestamp r)) (EventRating db).

Definition yr_rows (db : database) (lo hi : Z) : list YrType :=
  List.filter (fun r => in_window lo hi (yr_timestamp r)) (Yr db).

Definition day_rating_rows (db : database) (lo hi : Z) : list DayRatingType :=
  List.filter (fun r => in_window lo hi (day_timestamp r)) (DayRating db).

(** [sum(c) / count(c)] *)
Definition average (l : list (option Q)) : option Q :=
  div (sum l) (num (count l)).

(** [((a) + 1) / 2], the rescaling in the statement of [fetch_label]. *)
Definition rescale (a : option Q) : option Q := div (add a (num 1)) (num 2).

(** The [ratio] column of [day_rating_sql]. *)
Definition day_rating_ratio (db : database) (lo hi : Z) : option Q :=
  rescale (average (map day_button (day_rating_rows db lo hi))).

(** The rows each statement returns for its parameters.  An aggregate
    without [GROUP BY] returns one row; in [negative_slack_sql] the rows
    of [SlackType] that pass the outer [WHERE] are joined with the one row
    of the sub-select, and with none passing, [total_size] and so the
    ratio are [NULL]. *)
Definition select (q : statement) (params : list Z) (db : database) : list dict :=
  match q, params with
  | slack_sql, [lo; hi] =>
      map (fun r => {[ "timestamp" := VInt (slack_timestamp r) ]}) (slack_rows db lo hi)
  | slack_reactions_sql, [lo; hi] =>
      map (fun '(g, n) =>
             <[ "reaction" := VStr (reaction g) ]>
               (<[ "count" := VInt n ]>
                  (<[ "positive_ratio" := decimal (positive_ratio g) ]>
                     (<[ "neutral_ratio" := decimal (neutral_ratio g) ]>
                        {[ "negative_ratio" := decimal (negative_ratio g) ]}))))
          (group_by_reaction (reaction_rows db lo hi))
  | github_sql, [lo; hi] =>
      [ {[ "count" := VInt (count_rows (github_rows db lo hi)) ]} ]
  | event_rating_sql, [lo; hi] =>
      [ {[ "ratio" :=
             decimal (mul (average (map event_button (event_rating_rows db lo hi)))
                          (num 1000)) ]} ]
  | yr_sql, [lo; hi] =>
      [ <[ "temp" := decimal (mul (num 10) (average (map temperature (yr_rows db lo hi)))) ]>
          {[ "prec" :=
               decimal (mul (num 100) (average (map precipitation (yr_rows db lo hi)))) ]} ]
  | negative_slack_sql, _ =>
      match negative_windows params with
      | Some (inner, outer) =>
          let total_size := count_rows (negative_denominator_rows db inner) in
          let matched := negative_numerator_rows db outer in
          [ {[ "ratio" :=
                 decimal (match matched with
                          | [] => None
                          | _ => mul (num 1000) (div (num (count_rows matched)) (num total_size))
                          end) ]} ]
      | None => []
      end
  | day_rating_sql, [lo; hi] =>
      [ {[ "ratio" := decimal (day_rating_ratio db lo hi) ]} ]
  | _, _ => []
  end.

(** [cursor.execute(sql_query, sql_params)]: the parameters fill the [%s]
    of the statement in order, and a wrong number of them is a
    [TypeError] of the string formatting. *)
Definition execute (q : statement) (params : list Z) (db : database)
    : outcome (list dict) :=
  if Nat.ltb (length params) (placeholders q) then
    Raise (TypeError "not enough arguments for format string")
  else if Nat.ltb (placeholders q) (length params) then
    Raise (TypeError "not all arguments converted during string formatting")
  else Return (select q params db).

End Sql.

(** ** The builtin [int] on a string

    Surrounding white space is dropped, a sign may lead, and the digits may
    be separated by single underscores.  A string is a list of bytes here,
    and only the ASCII digits and white space are read: the other decimal
    digits and spaces of Unicode, which Python's [int] also accepts, are
    taken for an invalid literal.  Whatever number this [int] returns,
    Python's returns too. *)

Definition is_space (c : ascii) : bool :=
  let n := Z.of_nat (nat_of_ascii c) in
  (n =? 32) || ((9 <=? n) && (n <=? 13)).

Definition digit (c : ascii) : option Z :=
  let n := Z.of_nat (nat_of_ascii c) in
  if (48 <=? n) && (n <=? 57) then Some (n - 48) else None.

Fixpoint lstrip (l : list ascii) : list ascii :=
  match l with
  | c :: l' => if is_space c then lstrip l' else l
  | [] => []
  end.

Definition strip (l : list ascii) : list ascii :=
  rev (lstrip (rev (lstrip l))).

(** [after_digit] says whether the character before was a digit: only then
    may the literal end or an underscore follow. *)
Fixpoint digits (acc : Z) (after_digit : bool) (l : list ascii) : option Z :=
  match l with
  | [] => if after_digit then Some acc else None
  | c :: l' =>
      match digit c with
      | Some d => digits (10 * acc + d) true l'
      | None =>
          if Ascii.eqb c "_"%char && after_digit then digits acc false l' else None
      end
  end.

Definition int_of_string (s : string) : option Z :=
  match strip (String.list_ascii_of_string s) with
  | c :: ds =>
      if Ascii.eqb c "-"%char then Z.opp <$> digits 0 false ds
      else if Ascii.eqb c "+"%char then digits 0 false ds
      else digits 0 false (c :: ds)
  | [] => None
  end.

(** [int(os.getenv(...))]: [None] is a [TypeError], a string that is no
    integer literal a [ValueError]. *)
Definition int (o : option string) : outcome Z :=
  match o with
  | None => Raise (TypeError "int() argument must be a string, a bytes-like object or a real number, not 'NoneType'")
  | Some s =>
      match int_of_string s with
      | Some n => Return n
      | None => Raise (ValueError "invalid literal for int() with base 10")
      end
  end.

(** ** The world the program runs in *)

(** The handle [pymysql.connect] returns, by the arguments it was made
    from. *)
Record connection := {
  host : option string;
  user : option string;
  password : option string;
  db : option string;
  port : Z;
  charset : string;
  cursorclass : string
}.

(** What the program asks of pymysql, in order. *)
Inductive event :=
| Connect (c : connection)
| Execute (q : Sql.statement) (params : list Z).

Record world := {
  environ : gmap string string;            (* os.environ *)
  DataFetcher__connection : option connection;  (* the class attribute *)
  store : database;                        (* the rows behind the connection *)
  now : Z;                                 (* datetime.now().timestamp() *)
  trace : list event                       (* the calls made so far *)
}.

Definition set_connection (c : option connection) (w : world) : world :=
  {| environ := environ w; DataFetcher__connection := c; store := store w;
     now := now w; trace := trace w |}.

Definition record (e : event) (w : world) : world :=
  {| environ := environ w; DataFetcher__connection := DataFetcher__connection w;
     store := store w; now := now w; trace := trace w ++ [e] |}.

Definition set_store (d : database) (w : world) : world :=
  {| environ := environ w; DataFetcher__connection := DataFetcher__connection w;
     store := d; now := now w; trace := trace w |}.

Definition set_now (t : Z) (w : world) : world :=
  {| environ := environ w; DataFetcher__connection := DataFetcher__connection w;
     store := store w; now := t; trace := trace w |}.

(** ** Computations: state and exceptions *)

Definition M (A : Type) : Type := world -> outcome A * world.

Definition ret {A} (a : A) : M A := fun w => (Return a, w).

Definition raise {A} (e : exn) : M A := fun w => (Raise e, w).

Definition lift {A} (o : outcome A) : M A := fun w => (o, w).

Definition bind {A B} (m : M A) (k : A -> M B) : M B :=
  fun w =>
    match m w with
    | (Return a, w') => k a w'
    | (Raise e, w') => (Raise e, w')
    end.

Notation "'let!' x ':=' m 'in' k" := (bind m (fun x => k))
  (at level 10, x name, m at level 200, k at level 200).
Notation "'let!' ' pat ':=' m 'in' k" :=
  (bind m (fun x => match x with pat => k end))
  (at level 10, pat pattern, m at level 200, k at level 200).

(** ** The connection provider *)

Definition getenv (name : string) : M (option string) :=
  fun w => (Return (environ w !! name), w).

Definition read_connection : M (option connection) :=
  fun w => (Return (DataFetcher__connection w), w).

Definition write_connection (c : connection) : M unit :=
  fun w => (Return tt, set_connection (Some c) w).

Definition pymysql_connect (host user password db : option string) (port : Z)
    (charset cursorclass : string) : M connection :=
  fun w =>
    let c := {| host := host; user := user; password := password; db := db;
                port := port; charset := charset; cursorclass := cursorclass |} in
    (Return c, record (Connect c) w).

(** [DataFetcher()]: the constructor [__init__] (lines 16-34). *)
Definition __init__ : M unit :=
  let! c := read_connection in
  match c with
  | Some _ => raise (Exception "This class should only be created once.")
  | None =>
      let! host := getenv "DATAPLATTFORM_AURORA_HOST" in
      let! db_name := getenv "DATAPLATTFORM_AURORA_DB_NAME" in
      let! username := getenv "DATAPLATTFORM_AURORA_USER" in
      let! password := getenv "DATAPLATTFORM_AURORA_PASSWORD" in
      let! port_text := getenv "DATAPLATTFORM_AURORA_PORT" in
      let! port := lift (int port_text) in
      let! connection := pymysql_connect host username password db_name port
                      "utf8mb4" "pymysql.cursors.DictCursor" in
      write_connection connection
  end.

(** [get_connection()] (lines 10-14). *)
Definition get_connection : M (option connection) :=
  let! c := read_connection in
  let! _ := match c with
       | None => __init__
       | Some _ => ret tt
       end in
  read_connection.

(** [connection.cursor()]; on [None] the attribute does not exist. *)
Definition cursor (c : option connection) : M connection :=
  match c with
  | Some c => ret c
  | None => raise (AttributeError "'NoneType' object has no attribute 'cursor'")
  end.

(** [cursor.execute(sql_query, sql_params)] against the store. *)
Definition cursor_execute (q : Sql.statement) (params : list Z) : M (list dict) :=
  fun w =>
    match Sql.execute q params (store w) with
    | Return rows => (Return rows, record (Execute q params) w)
    | Raise e => (Raise e, w)
    end.

Definition datetime_now_timestamp : M Z := fun w => (Return (now w), w).

(** ** The processing functions of [processing_data.ProcessingData]

    They belong to another module; each takes what the cursor returned and
    gives the features to merge.  They are taken as total functions that
    touch nothing else. *)
Record ProcessingData := {
  process_slack_data : query_result -> dict;
  process_slack_reaction_data : query_result -> dict;
  process_github_data : query_result -> dict;
  process_event_rating_data : query_result -> dict;
  process_weather_data : query_result -> dict;
  process_slack_negative_data : query_result -> dict
}.

(** ** The extractor *)

Section DataFetcher.

Variable tz : TimeZone.
Variable ProcessingData : ProcessingData.

(** [timestamp_to_time_of_day(timestamp)] (lines 178-191). *)
Definition timestamp_to_time_of_day (timestamp : Z) : string :=
  let dt_object := fromtimestamp tz timestamp in
  let hour := hour dt_object in
  if hour <? 10 then "early"
  else if hour <? 14 then "midday"
  else "late".

(** [get_weekday(timestamp)] (lines 193-200). *)
Definition get_weekday (timestamp : Z) : Z :=
  let dt_object := fromtimestamp tz timestamp in
  weekday dt_object.

(** The body of the loop over the rows of [fetchall()] (lines 87-91): the
    bucket is stored under [time_of_day], then [timestamp] is deleted. *)
Definition reshape_row (row : dict) : outcome dict :=
  match row !! "timestamp" with
  | None => Raise (KeyError "timestamp")
  | Some (VInt ts) =>
      let time_of_day := timestamp_to_time_of_day ts in
      Return (delete "timestamp" (<[ "time_of_day" := VStr time_of_day ]> row))
  | Some _ => Raise (TypeError "object cannot be interpreted as an integer")
  end.

Fixpoint reshape_rows (rows : list dict) : outcome (list dict) :=
  match rows with
  | [] => Return []
  | row :: rest =>
      match reshape_row row with
      | Raise e => Raise e
      | Return row' =>
          match reshape_rows rest with
          | Raise e => Raise e
          | Return rest' => Return (row' :: rest')
          end
      end
  end.

(** [len(query_result) > 0 and "timestamp" in query_result[0]] (line 86). *)
Definition has_timestamp (rows : list dict) : bool :=
  match rows with
  | [] => false
  | row :: _ => bool_decide (is_Some (row !! "timestamp"))
  end.

(** The closure [execute_sql_and_process] of [fetch_x_data] (lines 71-94);
    [results] is the dictionary it updates, returned here, and
    [results.update(query_result)] lets the new entries win. *)
(** [fetchone()], or [fetchall()] and the re-expression of its rows
    (lines 82-91). *)
Definition fetch (only_one : bool) (rows : list dict) : outcome query_result :=
  if only_one then Return (FetchOne (head rows))
  else if has_timestamp rows then
    match reshape_rows rows with
    | Return rows' => Return (FetchAll rows')
    | Raise e => Raise e
    end
  else Return (FetchAll rows).

(** The closure [execute_sql_and_process] of [fetch_x_data]; [results] is
    the dictionary it updates, returned here. *)
Definition execute_sql_and_process (results : dict)
    (processing_func : query_result -> dict) (sql_query : Sql.statement)
    (only_one : bool) (sql_params : list Z) : M dict :=
  let! connection := get_connection in
  let! _ := cursor connection in
  let! rows := cursor_execute sql_query sql_params in
  let! query_result := lift (fetch only_one rows) in
  let query_result := processing_func query_result in
  ret (query_result ∪ results).

(** [fetch_x_data(timestamp_from, timestamp_to)] (lines 60-148); the default
    of [sql_params] is written out at each call. *)
Definition fetch_x_data (timestamp_from timestamp_to : Z) : M dict :=
  let results : dict := {[ "weekday" := VInt (get_weekday timestamp_to) ]} in
  let sql_params := [timestamp_from; timestamp_to] in
  let! results := execute_sql_and_process results
      (process_slack_data ProcessingData) Sql.slack_sql false sql_params in
  let! results := execute_sql_and_process results
      (process_slack_reaction_data ProcessingData) Sql.slack_reactions_sql false
      sql_params in
  let! results := execute_sql_and_process results
      (process_github_data ProcessingData) Sql.github_sql true sql_params in
  let! results := execute_sql_and_process results
      (process_event_rating_data ProcessingData) Sql.event_rating_sql true
      sql_params in
  let! results := execute_sql_and_process results
      (process_weather_data ProcessingData) Sql.yr_sql true sql_params in
  let! results := execute_sql_and_process results
      (process_slack_negative_data ProcessingData) Sql.negative_slack_sql true
      ([timestamp_from; timestamp_to] ++ [timestamp_from; timestamp_to]) in
  ret results.

(** [float(query_result["ratio"])] (line 175). *)
Definition float (v : value) : outcome Q :=
  match v with
  | VNum q => Return q
  | VInt n => Return (inject_Z n)
  | VStr _ => Raise (ValueError "could not convert string to float")
  | VNone => Raise (TypeError "float() argument must be a string or a real number, not 'NoneType'")
  end.

(** [fetch_label(timestamp_from, timestamp_to, skip_weekend)]
    (lines 150-176). *)
Definition fetch_label (timestamp_from timestamp_to : Z) (skip_weekend : bool)
    : M (option Q) :=
  if skip_weekend && bool_decide (get_weekday timestamp_to ∈ [5; 6])
  then ret None
  else
    let! current := datetime_now_timestamp in
    if current <? timestamp_to then ret None
    else
      let! connection := get_connection in
      let! _ := cursor connection in
      let! rows := cursor_execute Sql.day_rating_sql [timestamp_from; timestamp_to] in
      match head rows with
      | None => raise (TypeError "'NoneType' object is not subscriptable")
      | Some query_result =>
          match query_result !! "ratio" with
          | None => raise (KeyError "ratio")
          | Some VNone => ret None
          | Some ratio => let! label := lift (float ratio) in ret (Some label)
          end
      end.

(** One pass of the loop of [fetch_data] moves both ends of the window
    (lines 56-57). *)
Definition next_day (dates : Z * Z) : Z * Z :=
  (fst dates + timedelta 1, snd dates + timedelta 1).

(** The loop [for _ in range(days)] with its four locals (lines 46-57). *)
Fixpoint fetch_data_loop (passes : nat) (date_from date_to : Z)
    (x_data_list : list dict) (label_list : list Q) : M (list dict * list Q) :=
  match passes with
  | O => ret (x_data_list, label_list)
  | S passes' =>
      let timestamp_from := timestamp tz date_from in
      let timestamp_to := timestamp tz date_to in
      let! label := fetch_label timestamp_from timestamp_to true in
      let! '(x_data_list, label_list) :=
        match label with
        | Some label =>
            let! x_data := fetch_x_data timestamp_from timestamp_to in
            ret (x_data_list ++ [x_data], label_list ++ [label])
        | None => ret (x_data_list, label_list)
        end in
      let '(date_from, date_to) := next_day (date_from, date_to) in
      fetch_data_loop passes' date_from date_to x_data_list label_list
  end.

(** [fetch_data(date_from, days)] (lines 36-58); [range(days)] is empty for
    [days <= 0]. *)
Definition fetch_data (date_from : Z) (days : Z) : M (list dict * list Q) :=
  let date_to := date_from + timedelta 1 in
  fetch_data_loop (Z.to_nat days) date_from date_to [] [].

End DataFetcher.

(** ** What the operations compute, as functions of the store and the clock *)

Definition PORT : string := "DATAPLATTFORM_AURORA_PORT".

(** The handle the constructor builds from the environment. *)
Definition configuration (env : gmap string string) : outcome connection :=
  match int (env !! PORT) with
  | Return n =>
      Return {| host := env !! "DATAPLATTFORM_AURORA_HOST";
                user := env !! "DATAPLATTFORM_AURORA_USER";
                password := env !! "DATAPLATTFORM_AURORA_PASSWORD";
                db := env !! "DATAPLATTFORM_AURORA_DB_NAME";
                port := n;
                charset := "utf8mb4";
                cursorclass := "pymysql.cursors.DictCursor" |}
  | Raise e => Raise e
  end.



(** A world in which [get_connection] succeeds: the handle exists, or the
    environment holds a port that [int] reads. *)
Definition ready (w : world) : Prop :=
  is_Some (DataFetcher__connection w) \/
  exists c, configuration (environ w) = Return c.

(** The world once the handle exists. *)
Definition connected (w : world) : world :=
  match DataFetcher__connection w with
  | Some _ => w
  | None =>
      match configuration (environ w) with
      | Return c => set_connection (Some c) (record (Connect c) w)
      | Raise _ => w
      end
  end.

(** A computation's value, when it returns one. *)
Definition yields {A} (m : M A) (w : world) (a : A) : Prop :=
  fst (m w) = Return a.

(** The handles [pymysql.connect] was asked for. *)
Definition connects (es : list event) : list connection :=
  omap (fun e => match e with Connect c => Some c | Execute _ _ => None end) es.

(** The handles ever made are the one the class holds, if it holds one. *)
Definition coherent (w : world) : Prop :=
  connects (trace w) = option_list (DataFetcher__connection w).

(** A later world of the same process: the same environment, rows and
    clock, every earlier call still in the trace, a handle never replaced,
    no handle made beside the one held. *)
Definition evolves (w w' : world) : Prop :=
  environ w' = environ w /\ store w' = store w /\ now w' = now w /\
  (exists es, trace w' = trace w ++ es) /\
  (forall c, DataFetcher__connection w = Some c ->
             DataFetcher__connection w' = Some c) /\
  (coherent w -> coherent w').

(** The rows of [slack_sql] after the re-expression. *)
Definition time_of_day_row (tz : TimeZone) (r : SlackType) : dict :=
  {[ "time_of_day" := VStr (timestamp_to_time_of_day tz (slack_timestamp r)) ]}.

(** What each processing function receives for a window. *)
Definition slack_input (tz : TimeZone) (d : database) (lo hi : Z) : query_result :=
  FetchAll (map (time_of_day_row tz) (Sql.slack_rows d lo hi)).

Definition reaction_input (d : database) (lo hi : Z) : query_result :=
  FetchAll (Sql.select Sql.slack_reactions_sql [lo; hi] d).

Definition one_row (q : Sql.statement) (params : list Z) (d : database)
    : query_result :=
  FetchOne (head (Sql.select q params d)).

(** The record of a window: the six merges over the [weekday] entry,
    the last merge outermost. *)
Definition features (tz : TimeZone) (P : ProcessingData) (d : database)
    (lo hi : Z) : dict :=
  process_slack_negative_data P (one_row Sql.negative_slack_sql [lo; hi; lo; hi] d) ∪
  (process_weather_data P (one_row Sql.yr_sql [lo; hi] d) ∪
   (process_event_rating_data P (one_row Sql.event_rating_sql [lo; hi] d) ∪
    (process_github_data P (one_row Sql.github_sql [lo; hi] d) ∪
     (process_slack_reaction_data P (reaction_input d lo hi) ∪
      (process_slack_data P (slack_input tz d lo hi) ∪
       {[ "weekday" := VInt (get_weekday tz hi) ]}))))).


(** The statements [fetch_x_data] executes, in order. *)
Definition feature_statements (lo hi : Z) : list event :=
  [ Execute Sql.slack_sql [lo; hi];
    Execute Sql.slack_reactions_sql [lo; hi];
    Execute Sql.github_sql [lo; hi];
    Execute Sql.event_rating_sql [lo; hi];
    Execute Sql.yr_sql [lo; hi];
    Execute Sql.negative_slack_sql [lo; hi; lo; hi] ].

Definition record_all (es : list event) (w : world) : world :=
  foldl (fun w e => record e w) w es.

(** The weekend test of [fetch_label]. *)
Definition skipped (tz : TimeZone) (skip_weekend : bool) (hi : Z) : bool :=
  skip_weekend && bool_decide (get_weekday tz hi ∈ [5; 6]).

(** The label of a window at clock reading [clock]. *)
Definition label (tz : TimeZone) (d : database) (clock lo hi : Z)
    (skip_weekend : bool) : option Q :=
  if skipped tz skip_weekend hi then None
  else if clock <? hi then None
  else Sql.day_rating_ratio d lo hi.

(** The dates of the loop of [fetch_data] at pass [i], and its window. *)
Definition loop_dates (date_from : Z) (i : nat) : Z * Z :=
  Nat.iter i next_day (date_from, date_from + timedelta 1).

Definition day_window (tz : TimeZone) (date_from : Z) (i : nat) : Z * Z :=
  (timestamp tz (fst (loop_dates date_from i)),
   timestamp tz (snd (loop_dates date_from i))).

(** What one pass appends: the record and the label of the day, or
    nothing. *)
Definition day_pair (tz : TimeZone) (P : ProcessingData) (w : world)
    (dates : Z * Z) : option (dict * Q) :=
  let lo := timestamp tz (fst dates) in
  let hi := timestamp tz (snd dates) in
  match label tz (store w) (now w) lo hi true with
  | Some l => Some (features tz P (store w) lo hi, l)
  | None => None
  end.

(** The dates of [passes] passes from [dates] on. *)
Fixpoint dates_from (passes : nat) (dates : Z * Z) : list (Z * Z) :=
  match passes with
  | O => []
  | S passes' => dates :: dates_from passes' (next_day dates)
  end.

(** The store with only the rows strictly inside a window. *)
Definition strictly_inside (lo hi : Z) (d : database) : database :=
  {| Slack := List.filter (fun r => Sql.in_window lo hi (slack_timestamp r)) (Slack d);
     SlackReaction :=
       List.filter (fun r => Sql.in_window lo hi (reaction_timestamp r)) (SlackReaction d);
     Github := List.filter (fun r => Sql.in_window lo hi (github_timestamp r)) (Github d);
     EventRating :=
       List.filter (fun r => Sql.in_window lo hi (event_timestamp r)) (EventRating d);
     DayRating := List.filter (fun r => Sql.in_window lo hi (day_timestamp r)) (DayRating d);
     Yr := List.filter (fun r => Sql.in_window lo hi (yr_timestamp r)) (Yr d) |}.

(** What happens in the life of a process: the calls it makes, and between
    them the clock moving on and the rows changing under other hands. *)
Inductive call :=
| GetConnection
| Construct
| FetchLabel (timestamp_from timestamp_to : Z) (skip_weekend : bool)
| FetchXData (timestamp_from timestamp_to : Z)
| FetchData (date_from days : Z)
| ClockMoves (clock : Z)
| RowsChange (d : database).

(** The world after a call, whatever it returned or raised. *)
Definition after (tz : TimeZone) (P : ProcessingData) (c : call) (w : world) : world :=
  match c with
  | GetConnection => snd (get_connection w)
  | Construct => snd (__init__ w)
  | FetchLabel lo hi skip => snd (fetch_label tz lo hi skip w)
  | FetchXData lo hi => snd (fetch_x_data tz P lo hi w)
  | FetchData d n => snd (fetch_data tz P d n w)
  | ClockMoves clock => set_now clock w
  | RowsChange d => set_store d w
  end.





(** The statements of a trace, in order, without the connections. *)
Definition statements (es : list event) : list (Sql.statement * list Z) :=
  omap (fun e => match e with
                 | Execute q params => Some (q, params)
                 | Connect _ => None
                 end) es.

(** The statements one pass of the loop of [fetch_data] executes for its
    dates: none when the end of the window is a weekend day or after the
    clock, else the statement of the label, followed by the six of the
    record when the label is there. *)
Definition day_statements (tz : TimeZone) (d : database) (clock : Z)
    (dates : Z * Z) : list (Sql.statement * list Z) :=
  let lo := timestamp tz (fst dates) in
  let hi := timestamp tz (snd dates) in
  if skipped tz true hi then []
  else if clock <? hi then []
  else (Sql.day_rating_sql, [lo; hi]) ::
       match Sql.day_rating_ratio d lo hi with
       | Some _ => statements (feature_statements lo hi)
       | None => []
       end.

(** A window that [fetch_label] turns down before it asks the store. *)
Definition turned_down (tz : TimeZone) (clock : Z) (dates : Z * Z) : Prop :=
  skipped tz true (timestamp tz (snd dates)) = true \/ clock < timestamp tz (snd dates).

(** A row of [fetchall()] whose [timestamp] is an [int]. *)
Definition has_int_timestamp (row : dict) : Prop :=
  exists ts, row !! "timestamp" = Some (VInt ts).

(** ** Concrete zones, processing functions and worlds for the examples *)

Definition utc : TimeZone := fixed_zone 0.


(** A naive datetime from the day number since 1970-01-01 and the time of
    day. *)
Definition datetime (day h m : Z) : Z := day * DAY + h * HOUR + m * 60 * SECOND.

Definition count_bucket (bucket : string) (r : query_result) : Z :=
  match r with
  | FetchAll rows =>
      Z.of_nat (length (List.filter
        (fun row => match row !! "time_of_day" with
                    | Some (VStr s) => String.eqb s bucket
                    | _ => false
                    end) rows))
  | FetchOne _ => 0
  end.

Definition column (key feature : string) (r : query_result) : dict :=
  match r with
  | FetchOne (Some row) =>
      match row !! key with
      | Some v => {[ feature := v ]}
      | None => ∅
      end
  | _ => ∅
  end.

(** Stand-ins for [ProcessingData], each giving features of its own. *)
Definition sample_processing : ProcessingData :=
  {| process_slack_data := fun r =>
       <[ "early" := VInt (count_bucket "early" r) ]>
         (<[ "midday" := VInt (count_bucket "midday" r) ]>
            {[ "late" := VInt (count_bucket "late" r) ]});
     process_slack_reaction_data := fun r =>
       match r with
       | FetchAll rows => {[ "reactions" := VInt (Z.of_nat (length rows)) ]}
       | FetchOne _ => ∅
       end;
     process_github_data := column "count" "commits";
     process_event_rating_data := column "ratio" "event_ratio";
     process_weather_data := fun r => column "temp" "temp" r ∪ column "prec" "prec" r;
     process_slack_negative_data := column "ratio" "negative_ratio" |}.

(** Processing functions of which the last gives a feature called
    [weekday]: the name of the day of the week of the window's end is not
    among its inputs, it gives a fixed text. *)
Definition renaming_processing : ProcessingData :=
  {| process_slack_data := process_slack_data sample_processing;
     process_slack_reaction_data := process_slack_reaction_data sample_processing;
     process_github_data := process_github_data sample_processing;
     process_event_rating_data := process_event_rating_data sample_processing;
     process_weather_data := process_weather_data sample_processing;
     process_slack_negative_data := fun _ => {[ "weekday" := VStr "monday" ]} |}.

Definition sample_environ : gmap string string :=
  <[ "DATAPLATTFORM_AURORA_HOST" := "db.example.org" ]>
    (<[ "DATAPLATTFORM_AURORA_DB_NAME" := "dataplattform" ]>
       (<[ "DATAPLATTFORM_AURORA_USER" := "reader" ]>
          (<[ "DATAPLATTFORM_AURORA_PASSWORD" := "secret" ]>
             {[ "DATAPLATTFORM_AURORA_PORT" := "3306" ]}))).

(** Monday 2019-03-25 is day 17980 since the epoch.  The store holds the
    events of that day. *)
Definition monday : Z := 17980.

Definition sample_store : database :=
  {| Slack :=
       [ {| slack_timestamp := datetime monday 8 30; channel_name := Some "general" |};
         {| slack_timestamp := datetime monday 11 0; channel_name := Some "rant" |};
         {| slack_timestamp := datetime monday 15 45; channel_name := None |};
         {| slack_timestamp := datetime (monday + 1) 0 0; channel_name := Some "ubw" |} ];
     SlackReaction :=
       [ {| reaction_timestamp := datetime monday 9 0; reaction := "tada";
            positive_ratio := Some 1%Q; neutral_ratio := Some 0%Q;
            negative_ratio := Some 0%Q |};
         {| reaction_timestamp := datetime monday 9 5; reaction := "tada";
            positive_ratio := Some 1%Q; neutral_ratio := Some 0%Q;
            negative_ratio := Some 0%Q |} ];
     Github := [ {| github_timestamp := datetime monday 10 0 |} ];
     EventRating :=
       [ {| event_timestamp := datetime monday 12 0; event_button := Some 1%Q |} ];
     DayRating :=
       [ {| day_timestamp := datetime monday 16 0; day_button := Some 1%Q |};
         {| day_timestamp := datetime monday 16 5; day_button := Some 0%Q |};
         {| day_timestamp := datetime monday 0 0; day_button := Some (-1)%Q |} ];
     Yr :=
       [ {| yr_timestamp := datetime monday 6 0; temperature := Some 4%Q;
            precipitation := Some 0%Q |} ] |}.

(** Messages at the edges of the buckets on the same Monday: the last
    microsecond before 10:00, 10:00, the last microsecond before 14:00,
    14:00 and 23:00, in no channel. *)
Definition boundary_store : database :=
  {| Slack :=
       map (fun ts => {| slack_timestamp := ts; channel_name := None |})
         [ datetime monday 10 0 - 1; datetime monday 10 0; datetime monday 14 0 - 1;
           datetime monday 14 0; datetime monday 23 0 ];
     SlackReaction := []; Github := []; EventRating := []; DayRating := []; Yr := [] |}.

(** A fresh process at the given time: nothing connected, nothing asked. *)
Definition sample_world (clock : Z) : world :=
  {| environ := sample_environ; DataFetcher__connection := None;
     store := sample_store; now := clock; trace := [] |}.

(** * Properties *)

(** A filter whose test implies the window test: the side condition of
    [filter_filter_implied]. *)
Ltac window_implied := intros ?; rewrite ?andb_true_iff; tauto.

(** ** The connection provider *)

Lemma init_existing w c :
  DataFetcher__connection w = Some c ->
  __init__ w = (Raise (Exception "This class should only be created once."), w).
Proof. intros H. unfold __init__, bind, read_connection. rewrite H. reflexivity. Qed.

Lemma init_fresh w :
  DataFetcher__connection w = None ->
  __init__ w =
    match configuration (environ w) with
    | Return c => (Return tt, set_connection (Some c) (record (Connect c) w))
    | Raise e => (Raise e, w)
    end.
Proof.
  intros H. unfold __init__, bind, read_connection, getenv, lift. rewrite H.
  unfold configuration, PORT.
  destruct (int (environ w !! "DATAPLATTFORM_AURORA_PORT")); reflexivity.
Qed.

Lemma connected_handle w :
  ready w -> exists c, DataFetcher__connection (connected w) = Some c.
Proof.
  unfold ready, connected. intros [[c Hc] | [c Hc]].
  - rewrite Hc. eauto.
  - destruct (DataFetcher__connection w) eqn:E; [eauto|]. rewrite Hc. simpl. eauto.
Qed.

Lemma connected_id w c : DataFetcher__connection w = Some c -> connected w = w.
Proof. unfold connected. intros ->. reflexivity. Qed.

Lemma get_connection_existing w c :
  DataFetcher__connection w = Some c -> get_connection w = (Return (Some c), w).
Proof. intros H. unfold get_connection, bind, read_connection, ret. rewrite H. simpl. by rewrite H. Qed.

Lemma get_connection_ready w :
  ready w ->
  get_connection w = (Return (DataFetcher__connection (connected w)), connected w).
Proof.
  intros Hr. destruct (DataFetcher__connection w) as [c|] eqn:E.
  - rewrite (get_connection_existing w c E), (connected_id w c E), E. reflexivity.
  - destruct Hr as [[c Hc] | [c Hc]]; [congruence|].
    unfold get_connection, bind, read_connection. rewrite E.
    rewrite (init_fresh w E). unfold connected. rewrite E, Hc. reflexivity.
Qed.

Lemma get_connection_unconfigured w e :
  DataFetcher__connection w = None -> configuration (environ w) = Raise e ->
  get_connection w = (Raise e, w).
Proof.
  intros E Hc. unfold get_connection, bind, read_connection. rewrite E.
  rewrite (init_fresh w E), Hc. reflexivity.
Qed.

Lemma evolves_refl w : evolves w w.
Proof. unfold evolves. repeat split; auto. exists []. by rewrite app_nil_r. Qed.

Lemma evolves_trans w1 w2 w3 : evolves w1 w2 -> evolves w2 w3 -> evolves w1 w3.
Proof.
  intros (E1 & S1 & N1 & [es1 T1] & C1 & I1) (E2 & S2 & N2 & [es2 T2] & C2 & I2).
  unfold evolves. repeat split; try congruence.
  - exists (es1 ++ es2). rewrite T2, T1. by rewrite app_assoc.
  - auto.
  - auto.
Qed.

Lemma evolves_ready w w' : evolves w w' -> ready w -> ready w'.
Proof.
  intros (E & _ & _ & _ & C & _) [[c Hc] | [c Hc]].
  - left. rewrite (C c Hc). eauto.
  - right. exists c. by rewrite E.
Qed.

Lemma evolves_record w q params : evolves w (record (Execute q params) w).
Proof.
  unfold evolves, coherent. repeat split; simpl; auto.
  - by eexists.
  - intros H. unfold connects in *. rewrite omap_app. cbn. by rewrite app_nil_r.
Qed.

Lemma evolves_connected w : evolves w (connected w).
Proof.
  unfold connected. destruct (DataFetcher__connection w) eqn:E; [apply evolves_refl|].
  destruct (configuration (environ w)); [|apply evolves_refl].
  unfold evolves, coherent. repeat split; simpl; auto.
  - by eexists.
  - intros c. congruence.
  - rewrite E. intros H. unfold connects in *. rewrite omap_app, H. reflexivity.
Qed.

(** Lists of statements, with no connection among them. *)
Lemma evolves_record_all w es :
  Forall (fun e => exists q params, e = Execute q params) es ->
  evolves w (record_all es w).
Proof.
  revert w. induction es as [|e es IH]; intros w H; simpl.
  - apply evolves_refl.
  - inversion H as [|? ? (q & params & ->) H']; subst.
    eapply evolves_trans; [apply evolves_record | by apply IH].
Qed.


Lemma record_all_trace es w : trace (record_all es w) = trace w ++ es.
Proof.
  revert w. induction es as [|e es IH]; intros w; simpl.
  - by rewrite app_nil_r.
  - rewrite IH. simpl. by rewrite <- app_assoc.
Qed.


(** ** Running one statement *)

Lemma bind_returns {A B} (m : M A) (k : A -> M B) w a w' :
  m w = (Return a, w') -> bind m k w = k a w'.
Proof. unfold bind. intros ->. reflexivity. Qed.

Lemma bind_raises {A B} (m : M A) (k : A -> M B) w e w' :
  m w = (Raise e, w') -> bind m k w = (Raise e, w').
Proof. unfold bind. intros ->. reflexivity. Qed.

Lemma bind_assoc {A B C} (m : M A) (k : A -> M B) (k' : B -> M C) w :
  bind (bind m k) k' w = bind m (fun a => bind (k a) k') w.
Proof. unfold bind. destruct (m w) as [[a|e] w']; reflexivity. Qed.

Lemma connected_store w : store (connected w) = store w.
Proof. apply evolves_connected. Qed.


Lemma cursor_execute_ok q params w :
  length params = Sql.placeholders q ->
  cursor_execute q params w =
    (Return (Sql.select q params (store w)), record (Execute q params) w).
Proof.
  intros H. unfold cursor_execute, Sql.execute. rewrite H.
  rewrite Nat.ltb_irrefl. reflexivity.
Qed.

Lemma execute_sql_and_process_ready tz results f q only_one params w qr :
  ready w ->
  length params = Sql.placeholders q ->
  fetch tz only_one (Sql.select q params (store w)) = Return qr ->
  execute_sql_and_process tz results f q only_one params w =
    (Return (f qr ∪ results), record (Execute q params) (connected w)).
Proof.
  intros Hr Hlen Hf. unfold execute_sql_and_process.
  rewrite (bind_returns _ _ _ _ _ (get_connection_ready w Hr)).
  destruct (connected_handle w Hr) as [c Hc]. rewrite Hc. simpl cursor.
  erewrite bind_returns by reflexivity.
  rewrite (bind_returns _ _ _ _ _ (cursor_execute_ok q params _ Hlen)).
  rewrite connected_store. unfold lift.
  erewrite bind_returns by (rewrite Hf; reflexivity).
  reflexivity.
Qed.

Lemma execute_sql_and_process_connected tz results f q only_one params w c qr :
  DataFetcher__connection w = Some c ->
  length params = Sql.placeholders q ->
  fetch tz only_one (Sql.select q params (store w)) = Return qr ->
  execute_sql_and_process tz results f q only_one params w =
    (Return (f qr ∪ results), record (Execute q params) w).
Proof.
  intros Hc Hlen Hf.
  rewrite (execute_sql_and_process_ready tz results f q only_one params w qr);
    [by rewrite (connected_id w c Hc) | left; eauto | done | done].
Qed.

Lemma reshape_timestamp_row tz ts :
  reshape_row tz {[ "timestamp" := VInt ts ]} =
    Return {[ "time_of_day" := VStr (timestamp_to_time_of_day tz ts) ]}.
Proof.
  unfold reshape_row. rewrite lookup_singleton_eq.
  rewrite delete_insert_ne by done. rewrite delete_singleton_eq.
  by rewrite insert_empty.
Qed.

Lemma reshape_slack_rows tz rows :
  reshape_rows tz (map (fun r => {[ "timestamp" := VInt (slack_timestamp r) ]}) rows) =
    Return (map (time_of_day_row tz) rows).
Proof.
  induction rows as [|r rows IH]; [reflexivity|].
  cbn [map reshape_rows]. rewrite reshape_timestamp_row, IH. reflexivity.
Qed.

Lemma fetch_slack tz d lo hi :
  fetch tz false (Sql.select Sql.slack_sql [lo; hi] d) = Return (slack_input tz d lo hi).
Proof.
  unfold fetch, slack_input. cbn [Sql.select].
  destruct (Sql.slack_rows d lo hi) as [|r rows] eqn:E; [reflexivity|].
  rewrite <- E. rewrite reshape_slack_rows. rewrite E. cbn [map has_timestamp].
  rewrite lookup_singleton_eq. rewrite bool_decide_true by eauto. reflexivity.
Qed.

Lemma fetch_reactions tz d lo hi :
  fetch tz false (Sql.select Sql.slack_reactions_sql [lo; hi] d) =
    Return (reaction_input d lo hi).
Proof.
  unfold fetch, reaction_input. cbn [Sql.select].
  destruct (Sql.group_by_reaction (Sql.reaction_rows d lo hi)) as [|[g n] gs];
    [reflexivity|].
  cbn [map has_timestamp].
  rewrite bool_decide_false; [reflexivity|].
  repeat (rewrite lookup_insert_ne by done). rewrite lookup_singleton_ne by done.
  by intros [? ?].
Qed.


(** [fetch_x_data] returns [features] of the window and executes the six
    statements in order. *)
Lemma fetch_x_data_ready tz P lo hi w :
  ready w ->
  fetch_x_data tz P lo hi w =
    (Return (features tz P (store w) lo hi),
     record_all (feature_statements lo hi) (connected w)).
Proof.
  intros Hr. destruct (connected_handle w Hr) as [c Hc].
  unfold fetch_x_data.
  erewrite bind_returns; cycle 1.
  { apply execute_sql_and_process_ready; [done | done | apply fetch_slack]. }
  erewrite bind_returns; cycle 1.
  { eapply execute_sql_and_process_connected; [exact Hc | done | apply fetch_reactions]. }
  erewrite bind_returns; cycle 1.
  { eapply execute_sql_and_process_connected; [exact Hc | done | reflexivity]. }
  erewrite bind_returns; cycle 1.
  { eapply execute_sql_and_process_connected; [exact Hc | done | reflexivity]. }
  erewrite bind_returns; cycle 1.
  { eapply execute_sql_and_process_connected; [exact Hc | done | reflexivity]. }
  erewrite bind_returns; cycle 1.
  { eapply execute_sql_and_process_connected; [exact Hc | done | reflexivity]. }
  unfold ret. simpl store. rewrite !connected_store. reflexivity.
Qed.

(** ** The label of one window *)

Lemma fetch_label_skipped tz lo hi skip w :
  skipped tz skip hi = true -> fetch_label tz lo hi skip w = (Return None, w).
Proof. unfold fetch_label, skipped. intros ->. reflexivity. Qed.

Lemma fetch_label_future tz lo hi skip w :
  skipped tz skip hi = false -> now w < hi ->
  fetch_label tz lo hi skip w = (Return None, w).
Proof.
  unfold fetch_label, skipped. intros -> H.
  unfold bind, datetime_now_timestamp.
  apply Z.ltb_lt in H. rewrite H. reflexivity.
Qed.

Lemma fetch_label_query tz lo hi skip w :
  skipped tz skip hi = false -> hi <= now w -> ready w ->
  fetch_label tz lo hi skip w =
    (Return (Sql.day_rating_ratio (store w) lo hi),
     record (Execute Sql.day_rating_sql [lo; hi]) (connected w)).
Proof.
  unfold fetch_label, skipped. intros -> H Hr.
  unfold bind at 1. unfold datetime_now_timestamp.
  apply Z.ltb_ge in H. rewrite H.
  rewrite (bind_returns _ _ _ _ _ (get_connection_ready w Hr)).
  destruct (connected_handle w Hr) as [c Hc]. rewrite Hc. simpl cursor.
  erewrite bind_returns by reflexivity.
  erewrite bind_returns by (by apply cursor_execute_ok).
  rewrite connected_store. cbn [Sql.select head].
  rewrite lookup_singleton_eq.
  destruct (Sql.day_rating_ratio (store w) lo hi); reflexivity.
Qed.

Lemma fetch_label_unconfigured tz lo hi skip w e :
  skipped tz skip hi = false -> hi <= now w ->
  DataFetcher__connection w = None -> configuration (environ w) = Raise e ->
  fetch_label tz lo hi skip w = (Raise e, w).
Proof.
  unfold fetch_label, skipped. intros -> H E Hc.
  unfold bind at 1. unfold datetime_now_timestamp.
  apply Z.ltb_ge in H. rewrite H.
  by rewrite (bind_raises _ _ _ _ _ (get_connection_unconfigured w e E Hc)).
Qed.

(** In a ready world [fetch_label] returns [label] of the store and the
    clock, and leaves a later world of the same process. *)
Lemma fetch_label_ready tz lo hi skip w :
  ready w ->
  exists w', fetch_label tz lo hi skip w =
               (Return (label tz (store w) (now w) lo hi skip), w') /\
             evolves w w'.
Proof.
  intros Hr. unfold label.
  destruct (skipped tz skip hi) eqn:Hs.
  - exists w. split; [by apply fetch_label_skipped | apply evolves_refl].
  - destruct (Z.ltb_spec (now w) hi) as [Hlt | Hge].
    + exists w. split; [by apply fetch_label_future | apply evolves_refl].
    + eexists. split; [by apply fetch_label_query|].
      eapply evolves_trans; [apply evolves_connected | apply evolves_record].
Qed.

Lemma fetch_x_data_evolves tz P lo hi w :
  ready w ->
  exists w', fetch_x_data tz P lo hi w = (Return (features tz P (store w) lo hi), w') /\
             evolves w w'.
Proof.
  intros Hr. eexists. split; [by apply fetch_x_data_ready|].
  eapply evolves_trans; [apply evolves_connected | apply evolves_record_all].
  unfold feature_statements. repeat constructor; eauto.
Qed.

(** ** The loop over the days *)

Lemma day_pair_evolves tz P w w' dates :
  evolves w w' -> day_pair tz P w' dates = day_pair tz P w dates.
Proof. intros (_ & S & N & _). unfold day_pair. by rewrite S, N. Qed.

Lemma omap_day_pair_evolves tz P w w' (ds : list (Z * Z)) :
  evolves w w' -> omap (day_pair tz P w') ds = omap (day_pair tz P w) ds.
Proof.
  intros Hev. induction ds as [|d ds IH]; [reflexivity|].
  cbn [omap list_omap]. by rewrite IH, (day_pair_evolves tz P w w' d Hev).
Qed.

Lemma fetch_data_loop_ready tz P passes :
  forall date_from date_to x_data_list label_list w,
    ready w ->
    exists w',
      fetch_data_loop tz P passes date_from date_to x_data_list label_list w =
        (Return (x_data_list ++ (omap (day_pair tz P w) (dates_from passes (date_from, date_to))).*1,
                 label_list ++ (omap (day_pair tz P w) (dates_from passes (date_from, date_to))).*2),
         w') /\
      evolves w w'.
Proof.
  induction passes as [|passes IH]; intros date_from date_to xs ls w Hr.
  - exists w. simpl. rewrite !app_nil_r. split; [reflexivity | apply evolves_refl].
  - cbn [fetch_data_loop dates_from].
    destruct (fetch_label_ready tz (timestamp tz date_from) (timestamp tz date_to) true w Hr)
      as (w1 & Hl & Hev1).
    rewrite (bind_returns _ _ _ _ _ Hl).
    pose proof (evolves_ready _ _ Hev1 Hr) as Hr1.
    destruct (label tz (store w) (now w) (timestamp tz date_from) (timestamp tz date_to) true)
      as [l|] eqn:El.
    + assert (Edp : day_pair tz P w (date_from, date_to) =
                Some (features tz P (store w) (timestamp tz date_from) (timestamp tz date_to), l)).
      { unfold day_pair. cbn [fst snd]. by rewrite El. }
      destruct (fetch_x_data_evolves tz P (timestamp tz date_from) (timestamp tz date_to) w1 Hr1)
        as (w2 & Hx & Hev2).
      rewrite bind_assoc, (bind_returns _ _ _ _ _ Hx).
      erewrite bind_returns by reflexivity.
      pose proof (evolves_trans _ _ _ Hev1 Hev2) as Hev.
      destruct (IH (date_from + timedelta 1) (date_to + timedelta 1)
                  (xs ++ [features tz P (store w1) (timestamp tz date_from) (timestamp tz date_to)])
                  (ls ++ [l]) w2 (evolves_ready _ _ Hev Hr)) as (w3 & Hloop & Hev3).
      exists w3. split; [|by eapply evolves_trans].
      cbn [next_day fst snd]. rewrite Hloop.
      rewrite (omap_day_pair_evolves tz P w w2 _ Hev).
      cbn [omap list_omap]. rewrite Edp. unfold next_day. cbn [fst snd fmap list_fmap].
      destruct Hev1 as (_ & S1 & _). rewrite S1.
      rewrite <- !app_assoc. reflexivity.
    + assert (Edp : day_pair tz P w (date_from, date_to) = None).
      { unfold day_pair. cbn [fst snd]. by rewrite El. }
      erewrite bind_returns by reflexivity.
      destruct (IH (date_from + timedelta 1) (date_to + timedelta 1) xs ls w1 Hr1)
        as (w3 & Hloop & Hev3).
      exists w3. split; [|by eapply evolves_trans].
      cbn [next_day fst snd]. rewrite Hloop.
      rewrite (omap_day_pair_evolves tz P w w1 _ Hev1).
      cbn [omap list_omap]. rewrite Edp. reflexivity.
Qed.

Lemma dates_from_iter passes dates :
  dates_from passes dates = map (fun i => Nat.iter i next_day dates) (seq 0 passes).
Proof.
  revert dates. induction passes as [|passes IH]; intros dates; [reflexivity|].
  cbn [dates_from seq map Nat.iter]. f_equal.
  rewrite IH, <- seq_shift, map_map. apply map_ext. intros i.
  by rewrite Nat.iter_succ_r.
Qed.

Lemma omap_map {A B C} (f : B -> option C) (g : A -> B) (l : list A) :
  omap f (map g l) = omap (fun a => f (g a)) l.
Proof.
  induction l as [|a l IH]; [reflexivity|].
  cbn [map omap list_omap]. by rewrite IH.
Qed.



Lemma fetch_label_yields tz lo hi skip w l :
  ready w ->
  yields (fetch_label tz lo hi skip) w l <-> l = label tz (store w) (now w) lo hi skip.
Proof.
  intros Hr. destruct (fetch_label_ready tz lo hi skip w Hr) as (w' & H & _).
  unfold yields. rewrite H. simpl. split; congruence.
Qed.

Lemma fetch_x_data_yields tz P lo hi w x :
  ready w ->
  yields (fetch_x_data tz P lo hi) w x <-> x = features tz P (store w) lo hi.
Proof.
  intros Hr. unfold yields. rewrite (fetch_x_data_ready tz P lo hi w Hr). simpl.
  split; congruence.
Qed.


(** A world that is not ready: no handle, and an environment from which
    none can be made. *)
Lemma ready_or_not w :
  ready w \/
  (DataFetcher__connection w = None /\ exists e, configuration (environ w) = Raise e).
Proof.
  unfold ready. destruct (DataFetcher__connection w); [left; left; eauto|].
  destruct (configuration (environ w)); [left; right; eauto | right; eauto].
Qed.

Lemma execute_sql_and_process_unconfigured tz results f q only_one params w e :
  DataFetcher__connection w = None -> configuration (environ w) = Raise e ->
  execute_sql_and_process tz results f q only_one params w = (Raise e, w).
Proof.
  intros E Hc. unfold execute_sql_and_process.
  by rewrite (bind_raises _ _ _ _ _ (get_connection_unconfigured w e E Hc)).
Qed.

Lemma fetch_x_data_unconfigured tz P lo hi w e :
  DataFetcher__connection w = None -> configuration (environ w) = Raise e ->
  fetch_x_data tz P lo hi w = (Raise e, w).
Proof.
  intros E Hc. unfold fetch_x_data.
  by rewrite (bind_raises _ _ _ _ _
                (execute_sql_and_process_unconfigured tz _ _ _ _ _ w e E Hc)).
Qed.

Lemma fetch_label_unready tz lo hi skip w e :
  DataFetcher__connection w = None -> configuration (environ w) = Raise e ->
  (fetch_label tz lo hi skip w).2 = w /\
  (forall l, (fetch_label tz lo hi skip w).1 = Return l -> l = None).
Proof.
  intros E Hc. destruct (skipped tz skip hi) eqn:Hs.
  - rewrite fetch_label_skipped by done. split; [done | by intros l [= <-]].
  - destruct (Z.lt_ge_cases (now w) hi) as [Hlt | Hge].
    + rewrite fetch_label_future by done. split; [done | by intros l [= <-]].
    + rewrite (fetch_label_unconfigured tz lo hi skip w e) by done. split; [done | done].
Qed.

Lemma fetch_data_loop_unready tz P passes :
  forall date_from date_to xs ls w e,
    DataFetcher__connection w = None -> configuration (environ w) = Raise e ->
    (fetch_data_loop tz P passes date_from date_to xs ls w).2 = w /\
    (forall r, (fetch_data_loop tz P passes date_from date_to xs ls w).1 = Return r ->
               r = (xs, ls)).
Proof.
  induction passes as [|passes IH]; intros date_from date_to xs ls w e E Hc.
  { split; [reflexivity | by intros r [= <-]]. }
  cbn [fetch_data_loop].
  destruct (fetch_label_unready tz (timestamp tz date_from) (timestamp tz date_to) true w e E Hc)
    as [Hw Hl].
  destruct (fetch_label tz (timestamp tz date_from) (timestamp tz date_to) true w)
    as [[l|e'] w1] eqn:El; cbn [fst snd] in *; subst w1.
  - rewrite (bind_returns _ _ _ _ _ El). rewrite (Hl l eq_refl).
    erewrite bind_returns by reflexivity. cbn [next_day fst snd]. by eapply IH.
  - rewrite (bind_raises _ _ _ _ _ El). split; [reflexivity | discriminate].
Qed.

(** ** C1: the two sequences of [fetch_data] *)


Lemma sample_world_ready clock : ready (sample_world clock).
Proof. right. eexists. vm_compute. reflexivity. Defined.




(** ** C4: the windows of the loop *)












Lemma loop_dates_closed date_from i :
  loop_dates date_from i =
    (date_from + timedelta (Z.of_nat i), date_from + timedelta (Z.of_nat i + 1)).
Proof.
  unfold loop_dates. induction i as [|i IH].
  - unfold Nat.iter, timedelta. cbn [nat_rect]. f_equal; lia.
  - rewrite Nat.iter_succ, IH. unfold next_day, timedelta. cbn [fst snd].
    f_equal; lia.
Qed.






(** ** C2: the order of the checks of [fetch_label] *)

Lemma rescale_average a : Sql.rescale (Some a) = Some ((a + 1) / 2)%Q.
Proof. reflexivity. Qed.

Lemma skipped_weekend tz skip hi :
  skipped tz skip hi = true <-> skip = true /\ get_weekday tz hi ∈ [5; 6].
Proof.
  unfold skipped. rewrite andb_true_iff, bool_decide_eq_true. reflexivity.
Qed.

(** C2.  [fetch_label] checks in this order: a weekend end (when asked to
    skip) gives no label and leaves the world as it was; otherwise an end
    after the clock gives no label and leaves the world as it was;
    otherwise the rating statement is executed for the window, and the
    label is absent when the average is [NULL] and [(a + 1) / 2] for the
    average [a]. *)
Theorem fetch_label_short_circuit tz lo hi skip w :
  (skip = true -> get_weekday tz hi ∈ [5; 6] ->
   fetch_label tz lo hi skip w = (Return None, w)) /\
  (skipped tz skip hi = false -> now w < hi ->
   fetch_label tz lo hi skip w = (Return None, w)) /\
  (skipped tz skip hi = false -> hi <= now w -> ready w ->
   fetch_label tz lo hi skip w =
     (Return match Sql.average (map day_button (Sql.day_rating_rows (store w) lo hi)) with
             | None => None
             | Some a => Some ((a + 1) / 2)%Q
             end,
      record (Execute Sql.day_rating_sql [lo; hi]) (connected w))).
Proof.
  split; [|split].
  - intros Hs Hw. apply fetch_label_skipped. by apply skipped_weekend.
  - apply fetch_label_future.
  - intros Hs Hn Hr. rewrite (fetch_label_query tz lo hi skip w Hs Hn Hr).
    unfold Sql.day_rating_ratio.
    destruct (Sql.average _); reflexivity.
Qed.

Lemma fetch_label_short_circuit_witness :
  let saturday := datetime (monday - 2) 0 0 in
  let sunday := datetime (monday - 1) 0 0 in
  let tuesday := datetime (monday + 1) 0 0 in
  fetch_label utc saturday sunday true (sample_world tuesday)
    = (Return None, sample_world tuesday) /\
  fetch_label utc (datetime monday 0 0) tuesday true (sample_world (datetime monday 12 0))
    = (Return None, sample_world (datetime monday 12 0)) /\
  fetch_label utc (datetime monday 0 0) tuesday true (sample_world tuesday)
    = (Return match Sql.average (map day_button
                (Sql.day_rating_rows sample_store (datetime monday 0 0) tuesday)) with
              | None => None
              | Some a => Some ((a + 1) / 2)%Q
              end,
       record (Execute Sql.day_rating_sql [datetime monday 0 0; tuesday])
         (connected (sample_world tuesday))).
Proof.
  split; [|split].
  - refine (proj1 (fetch_label_short_circuit utc (datetime (monday - 2) 0 0)
             (datetime (monday - 1) 0 0) true (sample_world (datetime (monday + 1) 0 0))) _ _);
      [reflexivity | vm_compute; repeat constructor].
  - refine (proj1 (proj2 (fetch_label_short_circuit utc (datetime monday 0 0)
             (datetime (monday + 1) 0 0) true (sample_world (datetime monday 12 0)))) _ _);
      [reflexivity | reflexivity].
  - refine (proj2 (proj2 (fetch_label_short_circuit utc (datetime monday 0 0)
             (datetime (monday + 1) 0 0) true (sample_world (datetime (monday + 1) 0 0)))) _ _ _);
      [reflexivity | discriminate | apply sample_world_ready].
Defined.

(** ** C3: the rescaling of the label *)

Lemma half (x : Q) : (x / 2 == x * (1 # 2))%Q.
Proof. reflexivity. Qed.

(** C3.  When [fetch_label] reaches its statement and the rating average
    of the window is [a] in [-1, 1], the label is [(a + 1) / 2] and lies in
    [0, 1].  The rescaling [b |-> (b + 1) / 2] of the statement is
    one-to-one, maps [-1, 1] onto [0, 1], and sends -1, 0, 1 to 0, 1/2, 1.
    (Labels are exact rationals here, equal up to [==].) *)
Theorem label_rescaling_bijection tz lo hi skip w a :
  skipped tz skip hi = false -> hi <= now w -> ready w ->
  Sql.average (map day_button (Sql.day_rating_rows (store w) lo hi)) = Some a ->
  (-1 <= a <= 1)%Q ->
  (exists l, yields (fetch_label tz lo hi skip) w (Some l) /\
             (l == (a + 1) / 2)%Q /\ (0 <= l <= 1)%Q) /\
  (forall b, Sql.rescale (Some b) = Some ((b + 1) / 2)%Q) /\
  (forall b c, ((b + 1) / 2 == (c + 1) / 2)%Q -> (b == c)%Q) /\
  (forall b, (-1 <= b <= 1)%Q -> (0 <= (b + 1) / 2 <= 1)%Q) /\
  (forall y, (0 <= y <= 1)%Q -> exists b, (-1 <= b <= 1)%Q /\ ((b + 1) / 2 == y)%Q) /\
  ((-1 + 1) / 2 == 0)%Q /\ ((0 + 1) / 2 == 1 # 2)%Q /\ ((1 + 1) / 2 == 1)%Q.
Proof.
  intros Hs Hn Hr Ha Hb. split.
  - exists ((a + 1) / 2)%Q. split; [|split; [reflexivity|]].
    + unfold yields. rewrite (fetch_label_query tz lo hi skip w Hs Hn Hr).
      unfold Sql.day_rating_ratio. rewrite Ha. reflexivity.
    + rewrite half. lra.
  - split; [reflexivity|]. split; [|split; [|split]].
    + intros b c. rewrite !half. lra.
    + intros b H. rewrite half. lra.
    + intros y H. exists (2 * y - 1)%Q. rewrite half. split; lra.
    + repeat split; reflexivity.
Qed.

Lemma label_rescaling_bijection_witness :
  let lo := datetime monday 0 0 in
  let hi := datetime (monday + 1) 0 0 in
  Sql.average (map day_button (Sql.day_rating_rows sample_store lo hi)) = Some (1 # 2)%Q /\
  exists l, yields (fetch_label utc lo hi true) (sample_world hi) (Some l) /\
            (l == ((1 # 2) + 1) / 2)%Q /\ (0 <= l <= 1)%Q.
Proof.
  split; [reflexivity|].
  refine (proj1 (label_rescaling_bijection utc (datetime monday 0 0)
            (datetime (monday + 1) 0 0) true (sample_world (datetime (monday + 1) 0 0))
            (1 # 2)%Q _ _ _ _ _)).
  - reflexivity.
  - discriminate.
  - apply sample_world_ready.
  - reflexivity.
  - split; discriminate.
Defined.

(** ** C5: both ends of a window are excluded *)

Lemma in_window_strict lo hi ts : Sql.in_window lo hi ts = true <-> lo < ts < hi.
Proof. unfold Sql.in_window. rewrite andb_true_iff, !Z.ltb_lt. reflexivity. Qed.

Lemma filter_filter_implied {A} (f g : A -> bool) (l : list A) :
  (forall x, f x = true -> g x = true) ->
  List.filter f (List.filter g l) = List.filter f l.
Proof.
  intros H. induction l as [|x l IH]; [reflexivity|].
  cbn [List.filter]. destruct (g x) eqn:Eg.
  - cbn [List.filter]. by rewrite IH.
  - destruct (f x) eqn:Ef; [|exact IH]. apply H in Ef. congruence.
Qed.

Lemma slack_rows_inside d lo hi :
  Sql.slack_rows (strictly_inside lo hi d) lo hi = Sql.slack_rows d lo hi.
Proof. unfold Sql.slack_rows, strictly_inside. cbn [Slack]. apply filter_filter_implied; window_implied. Qed.

Lemma reaction_rows_inside d lo hi :
  Sql.reaction_rows (strictly_inside lo hi d) lo hi = Sql.reaction_rows d lo hi.
Proof. unfold Sql.reaction_rows, strictly_inside. cbn [SlackReaction]. apply filter_filter_implied; window_implied. Qed.

Lemma github_rows_inside d lo hi :
  Sql.github_rows (strictly_inside lo hi d) lo hi = Sql.github_rows d lo hi.
Proof. unfold Sql.github_rows, strictly_inside. cbn [Github]. apply filter_filter_implied; window_implied. Qed.

Lemma event_rating_rows_inside d lo hi :
  Sql.event_rating_rows (strictly_inside lo hi d) lo hi = Sql.event_rating_rows d lo hi.
Proof. unfold Sql.event_rating_rows, strictly_inside. cbn [EventRating]. apply filter_filter_implied; window_implied. Qed.

Lemma yr_rows_inside d lo hi :
  Sql.yr_rows (strictly_inside lo hi d) lo hi = Sql.yr_rows d lo hi.
Proof. unfold Sql.yr_rows, strictly_inside. cbn [Yr]. apply filter_filter_implied; window_implied. Qed.

Lemma day_rating_rows_inside d lo hi :
  Sql.day_rating_rows (strictly_inside lo hi d) lo hi = Sql.day_rating_rows d lo hi.
Proof. unfold Sql.day_rating_rows, strictly_inside. cbn [DayRating]. apply filter_filter_implied; window_implied. Qed.

Lemma negative_denominator_rows_inside d lo hi :
  Sql.negative_denominator_rows (strictly_inside lo hi d) (lo, hi) =
  Sql.negative_denominator_rows d (lo, hi).
Proof.
  unfold Sql.negative_denominator_rows, strictly_inside. cbn [Slack fst snd].
  apply filter_filter_implied; window_implied.
Qed.

Lemma negative_numerator_rows_inside d lo hi :
  Sql.negative_numerator_rows (strictly_inside lo hi d) (lo, hi) =
  Sql.negative_numerator_rows d (lo, hi).
Proof.
  unfold Sql.negative_numerator_rows, strictly_inside. cbn [Slack fst snd].
  apply filter_filter_implied; window_implied.
Qed.

(** Every statement of the two functions selects the same rows from the
    store and from its part strictly inside the window. *)
Lemma select_inside d lo hi q params :
  Execute q params ∈ feature_statements lo hi ++ [Execute Sql.day_rating_sql [lo; hi]] ->
  Sql.select q params (strictly_inside lo hi d) = Sql.select q params d.
Proof.
  intros H. apply list_elem_of_In in H. cbn in H.
  repeat (destruct H as [[= <- <-] | H]); try contradiction; cbn [Sql.select].
  - by rewrite slack_rows_inside.
  - by rewrite reaction_rows_inside.
  - by rewrite github_rows_inside.
  - by rewrite event_rating_rows_inside.
  - by rewrite yr_rows_inside.
  - cbn [Sql.negative_windows].
    by rewrite negative_denominator_rows_inside, negative_numerator_rows_inside.
  - unfold Sql.day_rating_ratio. by rewrite day_rating_rows_inside.
Qed.

Lemma features_inside tz P d lo hi :
  features tz P (strictly_inside lo hi d) lo hi = features tz P d lo hi.
Proof.
  unfold features, one_row, reaction_input, slack_input.
  rewrite slack_rows_inside.
  rewrite !(select_inside d lo hi) by (apply list_elem_of_In; cbn; tauto).
  reflexivity.
Qed.

Lemma label_inside tz d clock lo hi skip :
  label tz (strictly_inside lo hi d) clock lo hi skip = label tz d clock lo hi skip.
Proof.
  unfold label, Sql.day_rating_ratio. by rewrite day_rating_rows_inside.
Qed.

Lemma ready_set_store d w : ready w -> ready (set_store d w).
Proof. intros H. exact H. Qed.

(** C5.  The window predicate holds exactly for [lo < ts < hi], so fails at
    both ends; every statement that [fetch_x_data] and [fetch_label] execute
    for a window selects the same rows whether or not the store holds rows
    at or outside the two ends, and so both return the same value from the
    store and from its part strictly inside the window. *)
Theorem window_strictly_exclusive tz P lo hi skip w :
  ready w ->
  (forall ts, Sql.in_window lo hi ts = true <-> lo < ts < hi) /\
  Sql.in_window lo hi lo = false /\
  Sql.in_window lo hi hi = false /\
  (forall q params,
     Execute q params ∈ feature_statements lo hi ++ [Execute Sql.day_rating_sql [lo; hi]] ->
     Sql.select q params (strictly_inside lo hi (store w)) = Sql.select q params (store w)) /\
  (fetch_x_data tz P lo hi (set_store (strictly_inside lo hi (store w)) w)).1
    = (fetch_x_data tz P lo hi w).1 /\
  (fetch_label tz lo hi skip (set_store (strictly_inside lo hi (store w)) w)).1
    = (fetch_label tz lo hi skip w).1.
Proof.
  intros Hr. split; [apply in_window_strict|].
  split; [unfold Sql.in_window; by rewrite Z.ltb_irrefl|].
  split; [unfold Sql.in_window; by rewrite Z.ltb_irrefl, andb_false_r|].
  split; [intros q params; apply select_inside|].
  pose proof (ready_set_store (strictly_inside lo hi (store w)) w Hr) as Hr'.
  split.
  - rewrite (fetch_x_data_ready tz P lo hi _ Hr'), (fetch_x_data_ready tz P lo hi _ Hr).
    cbn [fst store set_store]. by rewrite features_inside.
  - destruct (fetch_label_ready tz lo hi skip _ Hr') as (w1 & -> & _).
    destruct (fetch_label_ready tz lo hi skip _ Hr) as (w2 & -> & _).
    cbn [fst store now set_store]. by rewrite label_inside.
Qed.

(** The sample store has a rating exactly at the start of Monday's window
    and a message exactly at its end. *)
Lemma window_strictly_exclusive_witness :
  let lo := datetime monday 0 0 in
  let hi := datetime (monday + 1) 0 0 in
  let w := sample_world (datetime (monday + 2) 0 0) in
  (forall ts, Sql.in_window lo hi ts = true <-> lo < ts < hi) /\
  Sql.in_window lo hi lo = false /\
  Sql.in_window lo hi hi = false /\
  (forall q params,
     Execute q params ∈ feature_statements lo hi ++ [Execute Sql.day_rating_sql [lo; hi]] ->
     Sql.select q params (strictly_inside lo hi (store w)) = Sql.select q params (store w)) /\
  (fetch_x_data utc sample_processing lo hi (set_store (strictly_inside lo hi (store w)) w)).1
    = (fetch_x_data utc sample_processing lo hi w).1 /\
  (fetch_label utc lo hi true (set_store (strictly_inside lo hi (store w)) w)).1
    = (fetch_label utc lo hi true w).1.
Proof.
  exact (window_strictly_exclusive utc sample_processing (datetime monday 0 0)
           (datetime (monday + 1) 0 0) true (sample_world (datetime (monday + 2) 0 0))
           (sample_world_ready _)).
Defined.

(** ** C6: the shared handle *)

Lemma get_connection_evolves w : evolves w (get_connection w).2.
Proof.
  destruct (DataFetcher__connection w) as [c|] eqn:E.
  - rewrite (get_connection_existing w c E). apply evolves_refl.
  - destruct (configuration (environ w)) as [c|e] eqn:Hc.
    + rewrite get_connection_ready by (right; eauto). apply evolves_connected.
    + rewrite (get_connection_unconfigured w e E Hc). apply evolves_refl.
Qed.

Lemma init_evolves w : evolves w (__init__ w).2.
Proof.
  destruct (DataFetcher__connection w) as [c|] eqn:E.
  - rewrite (init_existing w c E). apply evolves_refl.
  - rewrite (init_fresh w E).
    pose proof (evolves_connected w) as H. unfold connected in H. rewrite E in H.
    destruct (configuration (environ w)); [exact H | apply evolves_refl].
Qed.

(** Every call of the program leaves a later world of the same process. *)
Lemma call_evolves tz P c w :
  match c with ClockMoves _ | RowsChange _ => True | _ => evolves w (after tz P c w) end.
Proof.
  destruct (ready_or_not w) as [Hr | [E [e Hc]]]; destruct c; cbn [after]; try exact I.
  - apply get_connection_evolves.
  - apply init_evolves.
  - destruct (fetch_label_ready tz timestamp_from timestamp_to skip_weekend w Hr)
      as (w' & -> & H). exact H.
  - destruct (fetch_x_data_evolves tz P timestamp_from timestamp_to w Hr)
      as (w' & -> & H). exact H.
  - unfold fetch_data.
    destruct (fetch_data_loop_ready tz P (Z.to_nat days) date_from
                (date_from + timedelta 1) [] [] w Hr) as (w' & -> & H). exact H.
  - apply get_connection_evolves.
  - apply init_evolves.
  - destruct (fetch_label_unready tz timestamp_from timestamp_to skip_weekend w e E Hc)
      as [-> _]. apply evolves_refl.
  - rewrite (fetch_x_data_unconfigured tz P _ _ w e E Hc). apply evolves_refl.
  - unfold fetch_data.
    destruct (fetch_data_loop_unready tz P (Z.to_nat days) date_from
                (date_from + timedelta 1) [] [] w e E Hc) as [-> _]. apply evolves_refl.
Qed.











(** A second initialization: once [get_connection] has made the handle,
    the constructor raises the builtin [Exception] with the message of line
    18, which is not the message [already initialized]; the program has no
    exception class of its own. *)
Lemma second_initialization_counterexample :
  let w := (get_connection (sample_world (datetime (monday + 2) 0 0))).2 in
  (exists c, DataFetcher__connection w = Some c /\ port c = 3306) /\
  exists msg,
    __init__ w = (Raise (Exception msg), w) /\
    msg = "This class should only be created once." /\
    String.eqb msg "already initialized" = false.
Proof.
  split; [eexists; split; reflexivity|].
  eexists. split; [reflexivity|]. split; reflexivity.
Qed.

(** ** C7: the rows of the message-timing statement *)

Lemma time_of_day_buckets tz ts :
  let h := hour (fromtimestamp tz ts) in
  (h < 10 -> timestamp_to_time_of_day tz ts = "early") /\
  (10 <= h < 14 -> timestamp_to_time_of_day tz ts = "midday") /\
  (14 <= h -> timestamp_to_time_of_day tz ts = "late").
Proof.
  unfold timestamp_to_time_of_day. cbn zeta.
  destruct (Z.ltb_spec (hour (fromtimestamp tz ts)) 10);
    destruct (Z.ltb_spec (hour (fromtimestamp tz ts)) 14);
    repeat split; intros; try lia; reflexivity.
Qed.

(** The hour of a local time given by its day, hour and the rest of the
    hour. *)
Lemma hour_of_parts day h r :
  0 <= h < 24 -> 0 <= r < HOUR -> hour (day * DAY + h * HOUR + r) = h.
Proof.
  intros Hh Hr. unfold hour, DAY.
  replace (day * (24 * HOUR) + h * HOUR + r) with ((day * 24 + h) * HOUR + r) by lia.
  rewrite Z.div_add_l by (unfold HOUR, SECOND; lia).
  rewrite (Z.div_small r HOUR) by lia.
  rewrite Z.add_0_r, Z.add_comm, Z.mod_add by lia. apply Z.mod_small. lia.
Qed.

(** C7.  For the message-timing statement, whatever the processing
    function, it is applied to rows in which each returned row has lost its
    [timestamp] and gained [time_of_day], the bucket of the local hour of
    that timestamp: early below 10, midday from 10 and below 14, late from
    14 on, the hour being the [h] of the local time written as
    [day] days, [h] hours and less than an hour.  [fetch_x_data] hands
    exactly these rows to [process_slack_data]. *)
Theorem message_timing_rows_bucketed tz P lo hi w :
  ready w ->
  exists rows',
    (forall results processing_func,
       execute_sql_and_process tz results processing_func Sql.slack_sql false [lo; hi] w
         = (Return (processing_func (FetchAll rows') ∪ results),
            record (Execute Sql.slack_sql [lo; hi]) (connected w))) /\
    Forall2 (fun raw row =>
       exists ts,
         raw !! "timestamp" = Some (VInt ts) /\
         row = delete "timestamp"
                 (<[ "time_of_day" := VStr (timestamp_to_time_of_day tz ts) ]> raw) /\
         row !! "timestamp" = None /\
         row !! "time_of_day" = Some (VStr (timestamp_to_time_of_day tz ts)) /\
         (let h := hour (fromtimestamp tz ts) in
          (h < 10 -> timestamp_to_time_of_day tz ts = "early") /\
          (10 <= h < 14 -> timestamp_to_time_of_day tz ts = "midday") /\
          (14 <= h -> timestamp_to_time_of_day tz ts = "late")) /\
         (forall day h r,
            fromtimestamp tz ts = day * (24 * 3600 * 1000000) + h * (3600 * 1000000) + r ->
            0 <= h < 24 -> 0 <= r < 3600 * 1000000 ->
            (h < 10 -> row !! "time_of_day" = Some (VStr "early")) /\
            (10 <= h < 14 -> row !! "time_of_day" = Some (VStr "midday")) /\
            (14 <= h -> row !! "time_of_day" = Some (VStr "late"))))
      (Sql.select Sql.slack_sql [lo; hi] (store w)) rows' /\
    slack_input tz (store w) lo hi = FetchAll rows' /\
    yields (fetch_x_data tz P lo hi) w
      (process_slack_negative_data P
         (one_row Sql.negative_slack_sql [lo; hi; lo; hi] (store w)) ∪
       (process_weather_data P (one_row Sql.yr_sql [lo; hi] (store w)) ∪
        (process_event_rating_data P (one_row Sql.event_rating_sql [lo; hi] (store w)) ∪
         (process_github_data P (one_row Sql.github_sql [lo; hi] (store w)) ∪
          (process_slack_reaction_data P (reaction_input (store w) lo hi) ∪
           (process_slack_data P (FetchAll rows') ∪
            {[ "weekday" := VInt (get_weekday tz hi) ]})))))).
Proof.
  intros Hr. exists (map (time_of_day_row tz) (Sql.slack_rows (store w) lo hi)).
  split; [|split; [|split]].
  - intros results f. apply execute_sql_and_process_ready; [done | done | apply fetch_slack].
  - cbn [Sql.select]. apply Forall2_fmap, Forall_Forall2_diag, Forall_forall.
    intros r _. exists (slack_timestamp r). unfold time_of_day_row.
    split; [apply lookup_singleton_eq|].
    split.
    { rewrite delete_insert_ne by done. rewrite delete_singleton_eq.
      by rewrite insert_empty. }
    split; [by apply lookup_singleton_ne|].
    split; [apply lookup_singleton_eq|].
    split; [apply time_of_day_buckets|].
    intros day h r' Hlocal Hh Hr'. rewrite lookup_singleton_eq.
    pose proof (time_of_day_buckets tz (slack_timestamp r)) as Hb. cbn zeta in Hb.
    rewrite Hlocal in Hb.
    change (24 * 3600 * 1000000) with DAY in Hb. change (3600 * 1000000) with HOUR in Hb.
    rewrite (hour_of_parts day h r' Hh Hr') in Hb.
    destruct Hb as (H1 & H2 & H3).
    repeat split; intros ?; do 2 f_equal; auto.
  - reflexivity.
  - apply fetch_x_data_yields; [done | reflexivity].
Qed.

(** The messages at the edges of the buckets: 09:59:59.999999 is early,
    10:00 and 13:59:59.999999 are midday, 14:00 and 23:00 are late, and these
    five rows are what the processing function is applied to. *)
Lemma message_timing_rows_bucketed_witness :
  let lo := datetime monday 0 0 in
  let hi := datetime (monday + 1) 0 0 in
  let w := set_store boundary_store (sample_world (datetime (monday + 2) 0 0)) in
  exists rows',
    (forall results processing_func,
       execute_sql_and_process utc results processing_func Sql.slack_sql false [lo; hi] w
         = (Return (processing_func (FetchAll rows') ∪ results),
            record (Execute Sql.slack_sql [lo; hi]) (connected w))) /\
    rows' = [ {[ "time_of_day" := VStr "early" ]};
              {[ "time_of_day" := VStr "midday" ]};
              {[ "time_of_day" := VStr "midday" ]};
              {[ "time_of_day" := VStr "late" ]};
              {[ "time_of_day" := VStr "late" ]} ].
Proof.
  destruct (message_timing_rows_bucketed utc sample_processing (datetime monday 0 0)
              (datetime (monday + 1) 0 0)
              (set_store boundary_store (sample_world (datetime (monday + 2) 0 0)))
              (sample_world_ready _)) as (rows' & H1 & _ & H3 & _).
  exists rows'. split; [exact H1|].
  assert (Hrows : slack_input utc boundary_store (datetime monday 0 0)
                    (datetime (monday + 1) 0 0) =
                  FetchAll [ {[ "time_of_day" := VStr "early" ]};
                             {[ "time_of_day" := VStr "midday" ]};
                             {[ "time_of_day" := VStr "midday" ]};
                             {[ "time_of_day" := VStr "late" ]};
                             {[ "time_of_day" := VStr "late" ]} ])
    by (vm_compute; reflexivity).
  cbn [store set_store] in H3. rewrite Hrows in H3. by injection H3 as <-.
Defined.

(** The three messages of the sample Monday, at 08:30, 11:00 and 15:45. *)
Example message_timing_sample :
  slack_input utc sample_store (datetime monday 0 0) (datetime (monday + 1) 0 0) =
    FetchAll [ {[ "time_of_day" := VStr "early" ]};
               {[ "time_of_day" := VStr "midday" ]};
               {[ "time_of_day" := VStr "late" ]} ].
Proof. vm_compute. reflexivity. Qed.

(** The boundaries of the buckets, hour by hour: 09:59 is early,
    10:00 and 13:59 are midday, 14:00 and 23:00 are late. *)
Example time_of_day_boundaries :
  timestamp_to_time_of_day utc (datetime monday 9 59) = "early" /\
  timestamp_to_time_of_day utc (datetime monday 10 0) = "midday" /\
  timestamp_to_time_of_day utc (datetime monday 13 59) = "midday" /\
  timestamp_to_time_of_day utc (datetime monday 14 0) = "late" /\
  timestamp_to_time_of_day utc (datetime monday 23 0) = "late".
Proof. repeat split; reflexivity. Qed.

(** ** C8: the [weekday] entry *)







(** Monday 2019-03-25 has weekday 0 and the Sunday after it 6. *)
Example get_weekday_sample :
  get_weekday utc (datetime monday 12 0) = 0 /\
  get_weekday utc (datetime (monday + 6) 12 0) = 6.
Proof. split; reflexivity. Qed.

(** With a processing function that gives a feature called [weekday], the
    record of Monday's window holds that function's text under the key, not
    the number of the day. *)
Lemma weekday_overwritten_counterexample :
  let lo := datetime monday 0 0 in
  let hi := datetime (monday + 1) 0 0 in
  let w := sample_world (datetime (monday + 2) 0 0) in
  exists x,
    yields (fetch_x_data utc renaming_processing lo hi) w x /\
    x !! "weekday" = Some (VStr "monday") /\
    get_weekday utc hi = 1.
Proof.
  eexists. split; [|split].
  - apply fetch_x_data_yields; [apply sample_world_ready | reflexivity].
  - vm_compute. reflexivity.
  - reflexivity.
Qed.

(** ** C9: what the output depends on *)

(** The label looks at the clock only to see on which side of the end of
    the window it is. *)
Lemma label_same_side tz d clock1 clock2 lo hi skip :
  (clock1 < hi <-> clock2 < hi) ->
  label tz d clock1 lo hi skip = label tz d clock2 lo hi skip.
Proof.
  intros H. unfold label. destruct (skipped tz skip hi); [reflexivity|].
  destruct (Z.ltb_spec clock1 hi), (Z.ltb_spec clock2 hi); try reflexivity; lia.
Qed.

(** C9 (as amended).  [fetch_x_data] returns the same record in any two
    ready worlds with the same rows; [fetch_label] returns the same value in
    any two ready worlds with the same rows whose clocks are on the same
    side of the end of the window, and [fetch_data] the same sequences when
    the clocks are on the same side of the end of the window of every pass
    (as they are when the clocks read the same); and none of them changes a
    row of the store. *)
Theorem extractor_deterministic tz P date_from days lo hi skip w1 w2 :
  ready w1 -> ready w2 -> store w1 = store w2 ->
  (fetch_x_data tz P lo hi w1).1 = (fetch_x_data tz P lo hi w2).1 /\
  ((now w1 < hi <-> now w2 < hi) ->
   (fetch_label tz lo hi skip w1).1 = (fetch_label tz lo hi skip w2).1) /\
  ((forall i, Z.of_nat i < days ->
      (now w1 < (day_window tz date_from i).2 <-> now w2 < (day_window tz date_from i).2)) ->
   (fetch_data tz P date_from days w1).1 = (fetch_data tz P date_from days w2).1) /\
  (now w1 = now w2 ->
   (fetch_label tz lo hi skip w1).1 = (fetch_label tz lo hi skip w2).1 /\
   (fetch_data tz P date_from days w1).1 = (fetch_data tz P date_from days w2).1) /\
  store (fetch_x_data tz P lo hi w1).2 = store w1 /\
  store (fetch_label tz lo hi skip w1).2 = store w1 /\
  store (fetch_data tz P date_from days w1).2 = store w1.
Proof.
  intros Hr1 Hr2 Hs.
  assert (Hlabel : (now w1 < hi <-> now w2 < hi) ->
            (fetch_label tz lo hi skip w1).1 = (fetch_label tz lo hi skip w2).1).
  { intros Hn.
    destruct (fetch_label_ready tz lo hi skip w1 Hr1) as (w1' & -> & _).
    destruct (fetch_label_ready tz lo hi skip w2 Hr2) as (w2' & -> & _).
    cbn [fst]. by rewrite Hs, (label_same_side tz _ _ _ lo hi skip Hn). }
  assert (Hdata : (forall i, Z.of_nat i < days ->
              (now w1 < (day_window tz date_from i).2 <->
               now w2 < (day_window tz date_from i).2)) ->
            (fetch_data tz P date_from days w1).1 = (fetch_data tz P date_from days w2).1).
  { intros Hn. unfold fetch_data.
    destruct (fetch_data_loop_ready tz P (Z.to_nat days) date_from
                (date_from + timedelta 1) [] [] w1 Hr1) as (w1' & -> & _).
    destruct (fetch_data_loop_ready tz P (Z.to_nat days) date_from
                (date_from + timedelta 1) [] [] w2 Hr2) as (w2' & -> & _).
    cbn [fst]. rewrite dates_from_iter, !omap_map.
    assert (Hdp : forall l : list nat, Forall (fun i => Z.of_nat i < days) l ->
              omap (fun i => day_pair tz P w1
                       (Nat.iter i next_day (date_from, date_from + timedelta 1))) l =
              omap (fun i => day_pair tz P w2
                       (Nat.iter i next_day (date_from, date_from + timedelta 1))) l).
    { induction 1 as [|i l Hi _ IH]; [reflexivity|].
      cbn [omap list_omap]. rewrite IH. unfold day_pair.
      rewrite Hs, (label_same_side tz (store w2) (now w1) (now w2)); [done|].
      apply (Hn i Hi). }
    rewrite Hdp; [done|]. apply Forall_forall. intros i Hi.
    apply elem_of_seq in Hi. lia. }
  split; [|split; [exact Hlabel|split; [exact Hdata|split; [|split; [|split]]]]].
  - rewrite !fetch_x_data_ready by done. cbn [fst]. by rewrite Hs.
  - intros Hn. split; [apply Hlabel | apply Hdata; intros i _]; by rewrite Hn.
  - apply (call_evolves tz P (FetchXData lo hi) w1).
  - apply (call_evolves tz P (FetchLabel lo hi skip) w1).
  - apply (call_evolves tz P (FetchData date_from days) w1).
Qed.

(** Three days from Monday, asked at the start of Wednesday and again at
    noon of that day: on both occasions the first two windows have ended
    and the third has not, and the two calls return the same, Monday's
    record and label. *)
Lemma extractor_deterministic_witness :
  let d := datetime monday 0 0 in
  let w1 := sample_world (datetime (monday + 2) 0 0) in
  let w2 := sample_world (datetime (monday + 2) 12 0) in
  (fetch_data utc sample_processing d 3 w1).1 = (fetch_data utc sample_processing d 3 w2).1 /\
  (fetch_data utc sample_processing d 3 w2).1 =
    Return ([features utc sample_processing sample_store d (datetime (monday + 1) 0 0)],
            [(3 # 4)%Q]).
Proof.
  split; [|vm_compute; reflexivity].
  refine (proj1 (proj2 (proj2
            (extractor_deterministic utc sample_processing (datetime monday 0 0) 3
               (datetime monday 0 0) (datetime (monday + 1) 0 0) true
               (sample_world (datetime (monday + 2) 0 0))
               (sample_world (datetime (monday + 2) 12 0))
               (sample_world_ready _) (sample_world_ready _) eq_refl))) _).
  intros [|[|[|i]]] Hi; [| | |lia]; vm_compute; split; intros H; exact H || discriminate H.
Defined.

(** One process, one store, the same arguments: at 23:00 on Monday the
    window has not ended and the call returns nothing; an hour later, the
    rows unchanged, the same call returns Monday's record and label. *)
Lemma clock_dependence_counterexample :
  let d := datetime monday 0 0 in
  let w1 := sample_world (datetime monday 23 0) in
  let w2 := set_now (datetime (monday + 1) 0 0) (fetch_data utc sample_processing d 1 w1).2 in
  store w2 = store w1 /\
  (fetch_data utc sample_processing d 1 w1).1 = Return ([], []) /\
  (fetch_data utc sample_processing d 1 w2).1 =
    Return ([features utc sample_processing sample_store d (datetime (monday + 1) 0 0)],
            [(3 # 4)%Q]).
Proof. split; [reflexivity|]. split; vm_compute; reflexivity. Qed.

(** ** C10: the two windows of the negative-channel ratio *)

Lemma numerator_within_denominator d w :
  (forall r, r ∈ Sql.negative_numerator_rows d w -> r ∈ Sql.negative_denominator_rows d w) /\
  Sql.count_rows (Sql.negative_numerator_rows d w)
    <= Sql.count_rows (Sql.negative_denominator_rows d w).
Proof.
  unfold Sql.negative_numerator_rows, Sql.negative_denominator_rows, Sql.count_rows.
  split.
  - intros r. rewrite !list_elem_of_In, !filter_In, andb_true_iff. tauto.
  - induction (Slack d) as [|r l IH]; [done|]. cbn [List.filter].
    destruct (Sql.in_window w.1 w.2 (slack_timestamp r));
      rewrite ?andb_true_r, ?andb_false_r; [|exact IH].
    destruct (Sql.negative_channel r); cbn [length]; lia.
Qed.

Lemma inject_Z_positive n : 0 < n -> Qeq_bool (inject_Z n) 0 = false.
Proof.
  intros Hn. destruct (Qeq_bool (inject_Z n) 0) eqn:E; [|reflexivity].
  apply Qeq_bool_iff in E. unfold Qeq in E. cbn in E. lia.
Qed.

Lemma filter_bool {A} (f : A -> bool) (P : A -> Prop) `{!forall x, Decision (P x)}
    (l : list A) :
  (forall x, f x = true <-> P x) -> List.filter f l = filter P l.
Proof.
  intros Hiff. induction l as [|x l IH]; [reflexivity|].
  cbn [List.filter]. rewrite filter_cons, IH.
  destruct (f x) eqn:E.
  - rewrite decide_True by (by apply Hiff). reflexivity.
  - rewrite decide_False; [reflexivity|]. intros HP. apply Hiff in HP. congruence.
Qed.

Lemma negative_channel_names r :
  Sql.negative_channel r = true <->
  channel_name r = Some "rant" \/ channel_name r = Some "ubw".
Proof.
  unfold Sql.negative_channel. destruct (channel_name r) as [c|].
  - rewrite orb_true_iff, !String.eqb_eq. split; intros [H | H]; subst; auto;
      injection H as ->; auto.
  - split; [discriminate | intros [H | H]; discriminate].
Qed.

Lemma negative_denominator_filter d lo hi :
  Sql.negative_denominator_rows d (lo, hi) =
    filter (fun r => lo < slack_timestamp r < hi) (Slack d).
Proof.
  unfold Sql.negative_denominator_rows. apply filter_bool.
  intros r. apply in_window_strict.
Qed.

Lemma negative_numerator_filter d lo hi :
  Sql.negative_numerator_rows d (lo, hi) =
    filter (fun r => lo < slack_timestamp r < hi /\
                     (channel_name r = Some "rant" \/ channel_name r = Some "ubw"))
      (Slack d).
Proof.
  unfold Sql.negative_numerator_rows. apply filter_bool.
  intros r. cbn [fst snd]. rewrite andb_true_iff, in_window_strict, negative_channel_names.
  tauto.
Qed.

(** C10.  [fetch_x_data] executes the negative-channel statement last,
    with the pair of timestamps twice; under the statement's reading of its
    parameters the window of the inner count (the denominator) and the
    window of the outer filter (the numerator) are then the same, so every
    row counted above is counted below.  The row the statement returns, and
    that [process_slack_negative_data] receives, has for ratio 1000 times
    the number of messages of the channels rant and ubw strictly inside
    [(lo, hi)] over the number of all messages strictly inside [(lo, hi)],
    and no number when the first is 0: no message outside the window
    counts on either side. *)
Theorem negative_ratio_windows_identical tz P lo hi w :
  ready w ->
  trace (fetch_x_data tz P lo hi w).2 = trace (connected w) ++ feature_statements lo hi /\
  last (trace (fetch_x_data tz P lo hi w).2)
    = Some (Execute Sql.negative_slack_sql ([lo; hi] ++ [lo; hi])) /\
  (forall params, Execute Sql.negative_slack_sql params ∈ feature_statements lo hi ->
     Sql.negative_windows params = Some ((lo, hi), (lo, hi))) /\
  (forall r, r ∈ Sql.negative_numerator_rows (store w) (lo, hi) ->
             r ∈ Sql.negative_denominator_rows (store w) (lo, hi)) /\
  Sql.count_rows (Sql.negative_numerator_rows (store w) (lo, hi))
    <= Sql.count_rows (Sql.negative_denominator_rows (store w) (lo, hi)) /\
  let total_size :=
    Z.of_nat (length (filter (fun r => lo < slack_timestamp r < hi) (Slack (store w)))) in
  let matched :=
    Z.of_nat (length (filter (fun r => lo < slack_timestamp r < hi /\
                                (channel_name r = Some "rant" \/
                                 channel_name r = Some "ubw"))
                        (Slack (store w)))) in
  exists ratio,
    Sql.select Sql.negative_slack_sql ([lo; hi] ++ [lo; hi]) (store w)
      = [ {[ "ratio" := ratio ]} ] /\
    (matched = 0 -> ratio = VNone) /\
    (0 < matched ->
     ratio = VNum (1000 * (inject_Z matched / inject_Z total_size))) /\
    0 <= matched <= total_size /\
    yields (fetch_x_data tz P lo hi) w
      (process_slack_negative_data P (FetchOne (Some {[ "ratio" := ratio ]})) ∪
       (process_weather_data P (one_row Sql.yr_sql [lo; hi] (store w)) ∪
        (process_event_rating_data P (one_row Sql.event_rating_sql [lo; hi] (store w)) ∪
         (process_github_data P (one_row Sql.github_sql [lo; hi] (store w)) ∪
          (process_slack_reaction_data P (reaction_input (store w) lo hi) ∪
           (process_slack_data P (slack_input tz (store w) lo hi) ∪
            {[ "weekday" := VInt (get_weekday tz hi) ]})))))).
Proof.
  intros Hr.
  split; [|split; [|split; [|split; [|split]]]].
  - rewrite (fetch_x_data_ready tz P lo hi w Hr). cbn [snd]. apply record_all_trace.
  - rewrite (fetch_x_data_ready tz P lo hi w Hr). cbn [snd]. rewrite record_all_trace.
    change (feature_statements lo hi) with
      ([ Execute Sql.slack_sql [lo; hi]; Execute Sql.slack_reactions_sql [lo; hi];
         Execute Sql.github_sql [lo; hi]; Execute Sql.event_rating_sql [lo; hi];
         Execute Sql.yr_sql [lo; hi] ] ++ [Execute Sql.negative_slack_sql [lo; hi; lo; hi]]).
    rewrite app_assoc. apply last_snoc.
  - intros params H. apply list_elem_of_In in H. cbn in H.
    repeat (destruct H as [H | H]; [try discriminate H|]); [|contradiction].
    by injection H as <-.
  - apply numerator_within_denominator.
  - apply numerator_within_denominator.
  - cbn zeta.
    pose proof (proj2 (numerator_within_denominator (store w) (lo, hi))) as Hle.
    assert (Hy : yields (fetch_x_data tz P lo hi) w (features tz P (store w) lo hi))
      by (by apply fetch_x_data_yields).
    unfold features, one_row at 1 in Hy. revert Hy.
    cbn [app Sql.select Sql.negative_windows]. unfold Sql.count_rows in *.
    rewrite <- !negative_denominator_filter, <- !negative_numerator_filter.
    destruct (Sql.negative_numerator_rows (store w) (lo, hi)) as [|r rs] eqn:E.
    + intros Hy. exists VNone. cbn [length] in *.
      split; [reflexivity|]. split; [done|]. split; [lia|]. split; [lia | exact Hy].
    + intros Hy. eexists. split; [reflexivity|].
      cbn [Sql.mul Sql.div Sql.num] in *.
      assert (Hpos : 0 < Z.of_nat (length (Sql.negative_denominator_rows (store w) (lo, hi))))
        by (cbn [length] in Hle; lia).
      rewrite inject_Z_positive in * by exact Hpos.
      split; [cbn [length]; lia|]. split; [reflexivity|]. split; [lia | exact Hy].
Qed.

(** On the sample Monday one message of three strictly inside the window is
    in a negative channel: the ratio is 1000/3.  The store holds a fourth
    message, of the channel ubw, at the very end of the window: it counts on
    neither side. *)
Lemma negative_ratio_windows_identical_witness :
  let lo := datetime monday 0 0 in
  let hi := datetime (monday + 1) 0 0 in
  let w := sample_world (datetime (monday + 2) 0 0) in
  length (Slack (store w)) = 4%nat /\
  last (trace (fetch_x_data utc sample_processing lo hi w).2)
    = Some (Execute Sql.negative_slack_sql ([lo; hi] ++ [lo; hi])) /\
  exists ratio,
    Sql.select Sql.negative_slack_sql ([lo; hi] ++ [lo; hi]) (store w)
      = [ {[ "ratio" := ratio ]} ] /\
    ratio = VNum (1000 # 3) /\
    yields (fetch_x_data utc sample_processing lo hi) w
      (process_slack_negative_data sample_processing (FetchOne (Some {[ "ratio" := ratio ]})) ∪
       (process_weather_data sample_processing (one_row Sql.yr_sql [lo; hi] (store w)) ∪
        (process_event_rating_data sample_processing
           (one_row Sql.event_rating_sql [lo; hi] (store w)) ∪
         (process_github_data sample_processing (one_row Sql.github_sql [lo; hi] (store w)) ∪
          (process_slack_reaction_data sample_processing (reaction_input (store w) lo hi) ∪
           (process_slack_data sample_processing (slack_input utc (store w) lo hi) ∪
            {[ "weekday" := VInt (get_weekday utc hi) ]})))))).
Proof.
  destruct (negative_ratio_windows_identical utc sample_processing (datetime monday 0 0)
              (datetime (monday + 1) 0 0) (sample_world (datetime (monday + 2) 0 0))
              (sample_world_ready _)) as (_ & H2 & _ & _ & _ & ratio & Hsel & _ & Hpos & _ & Hy).
  split; [reflexivity|]. split; [exact H2|].
  exists ratio. split; [exact Hsel|]. split; [|exact Hy].
  rewrite Hpos by (vm_compute; reflexivity). vm_compute. reflexivity.
Defined.

(** On the sample Monday one message of three is in a negative channel; the
    message at the very end of the window counts on neither side. *)
Example negative_ratio_sample :
  Sql.select Sql.negative_slack_sql
    [datetime monday 0 0; datetime (monday + 1) 0 0;
     datetime monday 0 0; datetime (monday + 1) 0 0] sample_store
  = [ {[ "ratio" := VNum (1000 # 3) ]} ].
Proof. vm_compute. reflexivity. Qed.

(** ** Further properties *)

(** X3.  A window with no rating strictly inside gives no label, and the
    day contributes to neither sequence, whatever else the store holds for
    it. *)
Theorem unrated_day_contributes_nothing tz P date_from w :
  ready w ->
  Sql.day_rating_rows (store w) (day_window tz date_from 0).1 (day_window tz date_from 0).2 = [] ->
  yields (fetch_label tz (day_window tz date_from 0).1 (day_window tz date_from 0).2 true) w None /\
  (fetch_data tz P date_from 1 w).1 = Return ([], []).
Proof.
  intros Hr Hrows.
  assert (Hl : label tz (store w) (now w) (day_window tz date_from 0).1
                 (day_window tz date_from 0).2 true = None).
  { unfold label, Sql.day_rating_ratio. rewrite Hrows.
    destruct (skipped tz true _); [done|]. by destruct (_ <? _). }
  split; [by apply fetch_label_yields|].
  assert (Hdp : day_pair tz P w (date_from, date_from + timedelta 1) = None).
  { unfold day_pair. cbn [fst snd].
    change (label tz (store w) (now w) (timestamp tz date_from)
              (timestamp tz (date_from + timedelta 1)) true = None) in Hl.
    by rewrite Hl. }
  unfold fetch_data. change (Z.to_nat 1) with 1%nat.
  destruct (fetch_data_loop_ready tz P 1 date_from
              (date_from + timedelta 1) [] [] w Hr) as (w' & -> & _).
  cbn [fst dates_from omap list_omap]. by rewrite Hdp.
Qed.

(** Tuesday 2019-03-26 of the sample store has messages at its start but no
    rating. *)
Lemma unrated_day_contributes_nothing_witness :
  let tuesday := datetime (monday + 1) 0 0 in
  let w := sample_world (datetime (monday + 3) 0 0) in
  yields (fetch_label utc (day_window utc tuesday 0).1 (day_window utc tuesday 0).2 true) w None /\
  (fetch_data utc sample_processing tuesday 1 w).1 = Return ([], []).
Proof.
  exact (unrated_day_contributes_nothing utc sample_processing (datetime (monday + 1) 0 0)
           (sample_world (datetime (monday + 3) 0 0)) (sample_world_ready _) eq_refl).
Defined.

(** X4.  A later merge wins: after [execute_sql_and_process], a key that the
    processing function gives has the value it gives, and every other key
    keeps the value it had. *)
Theorem later_merge_overwrites tz results processing_func q only_one params w x key :
  yields (execute_sql_and_process tz results processing_func q only_one params) w x ->
  exists query_result,
    x = processing_func query_result ∪ results /\
    (forall v, processing_func query_result !! key = Some v -> x !! key = Some v) /\
    (processing_func query_result !! key = None -> x !! key = results !! key).
Proof.
  unfold yields, execute_sql_and_process, bind, cursor, cursor_execute, lift, ret, raise.
  destruct (get_connection w) as [[[c|]|e] w1]; cbn; try discriminate.
  destruct (Sql.execute q params (store w1)) as [rows|e]; cbn; try discriminate.
  destruct (fetch tz only_one rows) as [qr|e]; cbn; try discriminate.
  intros [= <-]. exists qr. split; [reflexivity|]. split.
  - intros v Hv. by apply lookup_union_Some_l.
  - intros Hn. by apply lookup_union_r.
Qed.

Lemma later_merge_overwrites_witness :
  let lo := datetime monday 0 0 in
  let hi := datetime (monday + 1) 0 0 in
  let overwrite := fun _ : query_result => ({[ "weekday" := VStr "monday" ]} : dict) in
  exists x,
    yields (execute_sql_and_process utc {[ "weekday" := VInt 1 ]} overwrite
              Sql.github_sql true [lo; hi]) (sample_world hi) x /\
    x !! "weekday" = Some (VStr "monday").
Proof.
  eexists. split; [vm_compute; reflexivity|].
  destruct (later_merge_overwrites utc {[ "weekday" := VInt 1 ]}
              (fun _ : query_result => ({[ "weekday" := VStr "monday" ]} : dict))
              Sql.github_sql true [datetime monday 0 0; datetime (monday + 1) 0 0]
              (sample_world (datetime (monday + 1) 0 0)) _ "weekday" eq_refl)
    as (qr & _ & H & _).
  apply H. reflexivity.
Defined.

(** X5.  Without a port in the environment the first use fails in [int], no
    handle is stored and nothing was asked of pymysql, so the next use tries
    again. *)
Theorem get_connection_unconfigured_port w :
  DataFetcher__connection w = None ->
  environ w !! "DATAPLATTFORM_AURORA_PORT" = None ->
  exists msg, get_connection w = (Raise (TypeError msg), w).
Proof.
  intros E Hp. eexists. apply get_connection_unconfigured; [exact E|].
  unfold configuration, PORT. rewrite Hp. reflexivity.
Qed.

Lemma get_connection_unconfigured_port_witness :
  let w := {| environ := ∅; DataFetcher__connection := None; store := sample_store;
              now := 0; trace := [] |} in
  exists msg, get_connection w = (Raise (TypeError msg), w).
Proof.
  exact (get_connection_unconfigured_port
           {| environ := ∅; DataFetcher__connection := None; store := sample_store;
              now := 0; trace := [] |} eq_refl eq_refl).
Defined.

(** ** The time helpers in a zone of fixed offset *)

Lemma hour_add_days dt k : hour (dt + k * DAY) = hour dt.
Proof.
  unfold hour, DAY.
  replace (dt + k * (24 * HOUR)) with (dt + (k * 24) * HOUR) by lia.
  rewrite Z.div_add by (unfold HOUR, SECOND; lia).
  by rewrite Z_mod_plus_full.
Qed.

Lemma weekday_add_days dt k : weekday (dt + k * DAY) = (weekday dt + k) mod 7.
Proof.
  unfold weekday. rewrite Z.div_add by (unfold DAY, HOUR, SECOND; lia).
  rewrite Zplus_mod_idemp_l. f_equal. lia.
Qed.

(** X1.  The bucket is always one of the three, and in a zone of fixed offset
    it depends on the time of day only: timestamps a whole number of days
    apart have the same bucket. *)
Theorem time_of_day_daily tz ts :
  timestamp_to_time_of_day tz ts ∈ ["early"; "midday"; "late"] /\
  forall off k,
    timestamp_to_time_of_day (fixed_zone off) (ts + k * DAY)
      = timestamp_to_time_of_day (fixed_zone off) ts.
Proof.
  split.
  - unfold timestamp_to_time_of_day. cbn zeta.
    destruct (_ <? 10); [by constructor|].
    destruct (_ <? 14); [by do 2 constructor | by do 3 constructor].
  - intros off k. unfold timestamp_to_time_of_day, fixed_zone. cbn [fromtimestamp].
    replace (ts + k * DAY + off) with (ts + off + k * DAY) by lia.
    by rewrite hour_add_days.
Qed.

(** X2.  In a zone of fixed offset the weekday of the epoch is Thursday's 3
    shifted by the offset in days, a day later the weekday is one more
    (modulo 7), and a week later it is the same. *)
Theorem get_weekday_calendar off ts :
  get_weekday utc 0 = 3 /\
  get_weekday (fixed_zone off) (ts + DAY) = (get_weekday (fixed_zone off) ts + 1) mod 7 /\
  get_weekday (fixed_zone off) (ts + 7 * DAY) = get_weekday (fixed_zone off) ts /\
  0 <= get_weekday (fixed_zone off) ts <= 6.
Proof.
  split; [reflexivity|].
  unfold get_weekday, fixed_zone. cbn [fromtimestamp].
  split; [|split].
  - replace (ts + DAY + off) with (ts + off + 1 * DAY) by lia.
    apply weekday_add_days.
  - replace (ts + 7 * DAY + off) with (ts + off + 7 * DAY) by lia.
    rewrite weekday_add_days.
    replace (weekday (ts + off) + 7) with (weekday (ts + off) + 1 * 7) by lia.
    rewrite Z_mod_plus_full. unfold weekday. by rewrite Zmod_mod.
  - unfold weekday. pose proof (Z.mod_pos_bound ((ts + off) / DAY + 3) 7). lia.
Qed.

(** X6.  In a zone of fixed offset [fetch_label] skips, of the windows of
    [fetch_data], exactly those that start on a Friday or a Saturday: the
    weekday it tests is that of the end of the window, one day after the
    start. *)
Theorem weekend_skip_by_start off date_from i :
  skipped (fixed_zone off) true (day_window (fixed_zone off) date_from i).2 = true <->
  weekday (loop_dates date_from i).1 ∈ [4; 5].
Proof.
  rewrite skipped_weekend. unfold day_window, get_weekday, fixed_zone.
  cbn [fst snd fromtimestamp timestamp].
  rewrite loop_dates_closed. cbn [fst snd]. unfold timedelta.
  replace (date_from + (Z.of_nat i + 1) * DAY - off + off)
    with (date_from + Z.of_nat i * DAY + 1 * DAY) by lia.
  rewrite weekday_add_days.
  pose proof (Z.mod_pos_bound ((date_from + Z.of_nat i * DAY) / DAY + 3) 7 ltac:(lia)) as Hb.
  fold (weekday (date_from + Z.of_nat i * DAY)) in Hb.
  remember (weekday (date_from + Z.of_nat i * DAY)) as wd eqn:Ewd. clear Ewd.
  rewrite !elem_of_cons, !elem_of_nil.
  assert (wd = 0 \/ wd = 1 \/ wd = 2 \/ wd = 3 \/ wd = 4 \/ wd = 5 \/ wd = 6) as Hc by lia.
  destruct Hc as [->|[->|[->|[->|[->|[->| ->]]]]]];
    change ((0 + 1) mod 7) with 1; change ((1 + 1) mod 7) with 2;
    change ((2 + 1) mod 7) with 3; change ((3 + 1) mod 7) with 4;
    change ((4 + 1) mod 7) with 5; change ((5 + 1) mod 7) with 6;
    change ((6 + 1) mod 7) with 0; intuition lia.
Qed.

(** ** When a label is there, and what it can be *)

Lemma omap_id_nil {A} (l : list (option A)) :
  omap id l = [] <-> Forall (fun o => o = None) l.
Proof.
  induction l as [|[a|] l IH]; cbn [omap list_omap id].
  - split; [constructor | reflexivity].
  - split; [discriminate | by inversion 1].
  - rewrite IH. split; [by constructor | by inversion 1].
Qed.

Lemma average_values l v vs :
  omap id l = v :: vs ->
  Sql.average l = Some (foldl Qplus v vs / inject_Z (Z.of_nat (S (length vs))))%Q.
Proof.
  intros H. unfold Sql.average, Sql.sum, Sql.count, Sql.div, Sql.num. rewrite H.
  cbn [length]. by rewrite inject_Z_positive by lia.
Qed.

Lemma average_None l : Sql.average l = None <-> Forall (fun o => o = None) l.
Proof.
  rewrite <- omap_id_nil. destruct (omap id l) as [|v vs] eqn:E.
  - unfold Sql.average, Sql.sum. rewrite E. by split.
  - rewrite (average_values l v vs E). split; discriminate.
Qed.

Lemma rescale_None a : Sql.rescale a = None <-> a = None.
Proof. destruct a; [by split | by split]. Qed.

(** X7.  When [fetch_label] reaches its statement, the label is absent exactly
    when no row strictly inside the window has a rating: no row at all, or
    only rows whose [button] is [NULL]. *)
Theorem label_absent_iff_unrated tz lo hi skip w :
  ready w -> skipped tz skip hi = false -> hi <= now w ->
  (yields (fetch_label tz lo hi skip) w None <->
   Forall (fun r => day_button r = None) (Sql.day_rating_rows (store w) lo hi)).
Proof.
  intros Hr Hs Hn. unfold yields.
  rewrite (fetch_label_query tz lo hi skip w Hs Hn Hr). cbn [fst].
  unfold Sql.day_rating_ratio.
  split.
  - intros [= H]. apply rescale_None, average_None in H.
    by apply Forall_fmap in H.
  - intros H. f_equal. apply rescale_None, average_None. by apply Forall_fmap.
Qed.

(** Sunday 2019-03-24 of the sample store: the only rating near it sits
    exactly at the end of the window. *)
Lemma label_absent_iff_unrated_witness :
  let lo := datetime (monday - 1) 0 0 in
  let hi := datetime monday 0 0 in
  let w := sample_world (datetime (monday + 2) 0 0) in
  yields (fetch_label utc lo hi true) w None <->
  Forall (fun r => day_button r = None) (Sql.day_rating_rows (store w) lo hi).
Proof.
  exact (label_absent_iff_unrated utc (datetime (monday - 1) 0 0) (datetime monday 0 0) true
           (sample_world (datetime (monday + 2) 0 0)) (sample_world_ready _) eq_refl
           ltac:(discriminate)).
Defined.

Lemma foldl_Qplus_bounds vs :
  forall acc n,
    (- inject_Z n <= acc <= inject_Z n)%Q ->
    Forall (fun v => -1 <= v <= 1)%Q vs ->
    (- inject_Z (n + Z.of_nat (length vs)) <= foldl Qplus acc vs
       <= inject_Z (n + Z.of_nat (length vs)))%Q.
Proof.
  induction vs as [|v vs IH]; intros acc n Ha Hv.
  - cbn [length foldl]. by rewrite Z.add_0_r.
  - inversion Hv as [|? ? Hv1 Hv2]; subst. cbn [length foldl].
    replace (n + Z.of_nat (S (length vs))) with ((n + 1) + Z.of_nat (length vs)) by lia.
    apply IH; [|done]. rewrite inject_Z_plus.
    change (inject_Z 1) with 1%Q. lra.
Qed.

Lemma average_bounds l a :
  Forall (fun o => forall v, o = Some v -> -1 <= v <= 1)%Q l ->
  Sql.average l = Some a -> (-1 <= a <= 1)%Q.
Proof.
  intros Hl Ha. destruct (omap id l) as [|v vs] eqn:E.
  { apply omap_id_nil, average_None in E. congruence. }
  rewrite (average_values l v vs E) in Ha. injection Ha as <-.
  assert (Hvs : Forall (fun v => -1 <= v <= 1)%Q (v :: vs)).
  { rewrite <- E. apply Forall_forall. intros x Hx.
    apply list_elem_of_omap in Hx as (o & Ho & Hox). cbn in Hox. subst o.
    rewrite Forall_forall in Hl. by apply (Hl _ Ho). }
  inversion Hvs as [|? ? Hv1 Hv2]; subst.
  pose proof (foldl_Qplus_bounds vs v 1 Hv1 Hv2) as Hb.
  replace (1 + Z.of_nat (length vs)) with (Z.of_nat (S (length vs))) in Hb by lia.
  set (s := foldl Qplus v vs) in *. set (c := inject_Z (Z.of_nat (S (length vs)))) in *.
  assert (Hc : (0 < c)%Q).
  { unfold c. rewrite <- (Zlt_Qlt 0). lia. }
  split.
  - apply Qle_shift_div_l; [done|]. lra.
  - apply Qle_shift_div_r; [done|]. lra.
Qed.

(** X8.  The docstring of [fetch_label]: when every rating in the table is
    between -1 and 1, a label that [fetch_label] returns is between 0 and
    1. *)
Theorem label_between_0_and_1 tz lo hi skip w l :
  Forall (fun r => forall b, day_button r = Some b -> -1 <= b <= 1)%Q (DayRating (store w)) ->
  yields (fetch_label tz lo hi skip) w (Some l) ->
  (0 <= l <= 1)%Q.
Proof.
  intros Hb Hy. destruct (ready_or_not w) as [Hr | [E [e Hc]]].
  - apply fetch_label_yields in Hy; [|done]. unfold label in Hy.
    destruct (skipped tz skip hi); [done|]. destruct (now w <? hi); [done|].
    unfold Sql.day_rating_ratio in Hy.
    destruct (Sql.average _) as [a|] eqn:Ea; [|done].
    rewrite rescale_average in Hy. injection Hy as ->.
    assert (Ha : (-1 <= a <= 1)%Q).
    { eapply average_bounds; [|exact Ea]. apply Forall_fmap, Forall_forall.
      intros r Hr' b Hrb. unfold Sql.day_rating_rows in Hr'.
      apply list_elem_of_In, filter_In in Hr' as [Hr' _].
      rewrite Forall_forall in Hb. eapply Hb; [by apply list_elem_of_In | done]. }
    rewrite half. lra.
  - destruct (fetch_label_unready tz lo hi skip w e E Hc) as [_ Hn].
    by specialize (Hn _ Hy).
Qed.

Lemma sample_ratings_bounded :
  Forall (fun r => forall b, day_button r = Some b -> -1 <= b <= 1)%Q (DayRating sample_store).
Proof.
  unfold sample_store. cbn [DayRating].
  repeat (constructor; [cbn; intros b [= <-]; split; discriminate|]).
  constructor.
Defined.

Lemma label_between_0_and_1_witness :
  let lo := datetime monday 0 0 in
  let hi := datetime (monday + 1) 0 0 in
  let w := sample_world (datetime (monday + 2) 0 0) in
  yields (fetch_label utc lo hi true) w (Some (3 # 4)%Q) /\ (0 <= 3 # 4 <= 1)%Q.
Proof.
  split; [reflexivity|].
  exact (label_between_0_and_1 utc (datetime monday 0 0) (datetime (monday + 1) 0 0) true
           (sample_world (datetime (monday + 2) 0 0)) (3 # 4)%Q
           sample_ratings_bounded eq_refl).
Defined.

(** ** As time passes *)

Lemma ready_set_now t w : ready w -> ready (set_now t w).
Proof. intros H. exact H. Qed.

Lemma label_later tz d clock clock' lo hi skip l :
  clock <= clock' ->
  label tz d clock lo hi skip = Some l -> label tz d clock' lo hi skip = Some l.
Proof.
  unfold label. intros Hc. destruct (skipped tz skip hi); [done|].
  destruct (Z.ltb_spec clock hi); [done|].
  destruct (Z.ltb_spec clock' hi); [lia | done].
Qed.

Lemma omap_sublist {A B} (f g : A -> option B) (l : list A) :
  (forall a b, f a = Some b -> g a = Some b) ->
  sublist (omap f l) (omap g l).
Proof.
  intros H. induction l as [|a l IH]; [constructor|].
  cbn [omap list_omap]. destruct (f a) as [b|] eqn:E.
  - rewrite (H a b E). by constructor.
  - destruct (g a); [by constructor | done].
Qed.

(** X9.  With the rows unchanged, what was returned stays returned when the
    clock has moved on: a label that [fetch_label] gave is given again, and
    the two sequences of [fetch_data] at the earlier time are subsequences
    of those at the later time. *)
Theorem output_grows_with_time tz P date_from days lo hi skip w t :
  ready w -> now w <= t ->
  (forall l, yields (fetch_label tz lo hi skip) w (Some l) ->
             yields (fetch_label tz lo hi skip) (set_now t w) (Some l)) /\
  exists xs ls xs' ls',
    (fetch_data tz P date_from days w).1 = Return (xs, ls) /\
    (fetch_data tz P date_from days (set_now t w)).1 = Return (xs', ls') /\
    sublist xs xs' /\ sublist ls ls'.
Proof.
  intros Hr Ht. pose proof (ready_set_now t w Hr) as Hr'. split.
  - intros l Hl. apply fetch_label_yields in Hl; [|done].
    apply fetch_label_yields; [done|]. cbn [store now set_now].
    symmetry. eapply label_later; [exact Ht | by symmetry].
  - unfold fetch_data.
    destruct (fetch_data_loop_ready tz P (Z.to_nat days) date_from
                (date_from + timedelta 1) [] [] w Hr) as (w1 & -> & _).
    destruct (fetch_data_loop_ready tz P (Z.to_nat days) date_from
                (date_from + timedelta 1) [] [] (set_now t w) Hr') as (w2 & -> & _).
    eexists _, _, _, _. split; [reflexivity|]. split; [reflexivity|].
    cbn [app].
    assert (Hs : sublist
              (omap (day_pair tz P w)
                 (dates_from (Z.to_nat days) (date_from, date_from + timedelta 1)))
              (omap (day_pair tz P (set_now t w))
                 (dates_from (Z.to_nat days) (date_from, date_from + timedelta 1)))).
    { apply omap_sublist. intros dates xl. unfold day_pair. cbn [store now set_now].
      destruct (label tz (store w) (now w) _ _ true) as [l|] eqn:El; [|done].
      intros [= <-]. by rewrite (label_later _ _ _ t _ _ _ _ Ht El). }
    split; by apply fmap_sublist.
Qed.

Lemma output_grows_with_time_witness :
  let d := datetime monday 0 0 in
  let w := sample_world (datetime monday 23 0) in
  exists xs ls xs' ls',
    (fetch_data utc sample_processing d 1 w).1 = Return (xs, ls) /\
    (fetch_data utc sample_processing d 1 (set_now (datetime (monday + 1) 0 0) w)).1
      = Return (xs', ls') /\
    sublist xs xs' /\ sublist ls ls'.
Proof.
  refine (proj2 (output_grows_with_time utc sample_processing (datetime monday 0 0) 1
            (datetime monday 0 0) (datetime (monday + 1) 0 0) true
            (sample_world (datetime monday 23 0)) (datetime (monday + 1) 0 0)
            (sample_world_ready _) _)).
  discriminate.
Defined.

(** ** Days that are turned down, and ranges put together *)

Lemma fetch_label_turned_down tz w dates :
  turned_down tz (now w) dates ->
  fetch_label tz (timestamp tz dates.1) (timestamp tz dates.2) true w = (Return None, w).
Proof.
  intros [Hs | Hf]; [by apply fetch_label_skipped|].
  destruct (skipped tz true (timestamp tz dates.2)) eqn:Hs;
    [by apply fetch_label_skipped | by apply fetch_label_future].
Qed.

Lemma fetch_data_loop_turned_down tz P passes :
  forall date_from date_to xs ls w,
    Forall (turned_down tz (now w)) (dates_from passes (date_from, date_to)) ->
    fetch_data_loop tz P passes date_from date_to xs ls w = (Return (xs, ls), w).
Proof.
  induction passes as [|passes IH]; intros date_from date_to xs ls w H; [reflexivity|].
  cbn [dates_from] in H. inversion H as [|? ? H1 H2]; subst.
  cbn [fetch_data_loop].
  rewrite (bind_returns _ _ _ _ _ (fetch_label_turned_down tz w (date_from, date_to) H1)).
  erewrite bind_returns by reflexivity.
  cbn [next_day fst snd]. by apply IH.
Qed.

(** X10.  When every window of the range ends on a weekend day or after the
    clock, [fetch_data] returns two empty sequences and leaves everything as
    it was: no handle is made and no statement executed, even in a process
    whose environment has no usable port. *)
Theorem fetch_data_all_turned_down tz P date_from days w :
  (forall i, Z.of_nat i < days -> turned_down tz (now w) (loop_dates date_from i)) ->
  fetch_data tz P date_from days w = (Return ([], []), w).
Proof.
  intros H. unfold fetch_data. apply fetch_data_loop_turned_down.
  rewrite dates_from_iter. apply Forall_fmap, Forall_forall.
  intros i Hi. apply elem_of_seq in Hi. apply (H i). lia.
Qed.

(** A weekend and the days after the clock, in a process with an empty
    environment. *)
Lemma fetch_data_all_turned_down_witness :
  let w := {| environ := ∅; DataFetcher__connection := None; store := sample_store;
              now := datetime (monday - 1) 12 0; trace := [] |} in
  fetch_data utc sample_processing (datetime (monday - 3) 0 0) 6 w = (Return ([], []), w).
Proof.
  apply (fetch_data_all_turned_down utc sample_processing (datetime (monday - 3) 0 0) 6).
  intros i Hi.
  assert (i = 0 \/ i = 1 \/ i = 2 \/ i = 3 \/ i = 4 \/ i = 5)%nat as Hc by lia.
  destruct Hc as [->|[->|[->|[->|[->| ->]]]]];
    first [ left; reflexivity | right; reflexivity ].
Defined.

Lemma dates_from_app a b dates :
  dates_from (a + b) dates = dates_from a dates ++ dates_from b (Nat.iter a next_day dates).
Proof.
  revert dates. induction a as [|a IH]; intros dates; [reflexivity|].
  cbn [Nat.add dates_from app]. rewrite IH. by rewrite Nat.iter_succ_r.
Qed.

(** X11.  A range can be fetched in two parts: in a ready world, the sequences
    of [fetch_data d (m + n)] are those of [fetch_data d m] followed by those
    of [fetch_data (d + timedelta(days=m)) n], read at the same clock. *)
Theorem fetch_data_split tz P date_from m n w :
  ready w -> 0 <= m -> 0 <= n ->
  exists xs1 ls1 xs2 ls2,
    (fetch_data tz P date_from m w).1 = Return (xs1, ls1) /\
    (fetch_data tz P (date_from + timedelta m) n w).1 = Return (xs2, ls2) /\
    (fetch_data tz P date_from (m + n) w).1 = Return (xs1 ++ xs2, ls1 ++ ls2).
Proof.
  intros Hr Hm Hn. unfold fetch_data.
  destruct (fetch_data_loop_ready tz P (Z.to_nat m) date_from
              (date_from + timedelta 1) [] [] w Hr) as (w1 & -> & _).
  destruct (fetch_data_loop_ready tz P (Z.to_nat n) (date_from + timedelta m)
              (date_from + timedelta m + timedelta 1) [] [] w Hr) as (w2 & -> & _).
  destruct (fetch_data_loop_ready tz P (Z.to_nat (m + n)) date_from
              (date_from + timedelta 1) [] [] w Hr) as (w3 & -> & _).
  eexists _, _, _, _. split; [reflexivity|]. split; [reflexivity|].
  cbn [fst app]. rewrite Z2Nat.inj_add by done. rewrite dates_from_app.
  fold (loop_dates date_from (Z.to_nat m)). rewrite loop_dates_closed.
  rewrite Z2Nat.id by done.
  replace (date_from + timedelta (m + 1)) with (date_from + timedelta m + timedelta 1)
    by (unfold timedelta; lia).
  by rewrite omap_app, !fmap_app.
Qed.

(** Four days from Saturday, as two and two. *)
Lemma fetch_data_split_witness :
  let d := datetime (monday - 2) 0 0 in
  let w := sample_world (datetime (monday + 2) 0 0) in
  exists xs1 ls1 xs2 ls2,
    (fetch_data utc sample_processing d 2 w).1 = Return (xs1, ls1) /\
    (fetch_data utc sample_processing (d + timedelta 2) 2 w).1 = Return (xs2, ls2) /\
    (fetch_data utc sample_processing d (2 + 2) w).1 = Return (xs1 ++ xs2, ls1 ++ ls2).
Proof.
  apply (fetch_data_split utc sample_processing (datetime (monday - 2) 0 0) 2 2
           (sample_world (datetime (monday + 2) 0 0)) (sample_world_ready _));
    discriminate.
Defined.

(** ** The statements a call executes *)

Lemma statements_app es es' : statements (es ++ es') = statements es ++ statements es'.
Proof. apply omap_app. Qed.

Lemma statements_connected w : statements (trace (connected w)) = statements (trace w).
Proof.
  unfold connected. destruct (DataFetcher__connection w); [done|].
  destruct (configuration (environ w)); [|done].
  cbn [trace set_connection record]. rewrite statements_app. cbn.
  by rewrite app_nil_r.
Qed.

Lemma fetch_label_statements tz lo hi skip w :
  ready w ->
  statements (trace (fetch_label tz lo hi skip w).2) =
    statements (trace w) ++
    (if skipped tz skip hi then []
     else if now w <? hi then []
     else [(Sql.day_rating_sql, [lo; hi])]).
Proof.
  intros Hr. destruct (skipped tz skip hi) eqn:Hs.
  - rewrite fetch_label_skipped by done. by rewrite app_nil_r.
  - destruct (Z.ltb_spec (now w) hi).
    + rewrite fetch_label_future by done. by rewrite app_nil_r.
    + rewrite fetch_label_query by done. cbn [snd trace record].
      by rewrite statements_app, statements_connected.
Qed.

Lemma fetch_x_data_statements tz P lo hi w :
  ready w ->
  statements (trace (fetch_x_data tz P lo hi w).2) =
    statements (trace w) ++ statements (feature_statements lo hi).
Proof.
  intros Hr. rewrite fetch_x_data_ready by done. cbn [snd].
  by rewrite record_all_trace, statements_app, statements_connected.
Qed.

Lemma day_statements_evolves tz w w' dates :
  evolves w w' ->
  day_statements tz (store w') (now w') dates = day_statements tz (store w) (now w) dates.
Proof. intros (_ & -> & -> & _). reflexivity. Qed.

Lemma fetch_data_loop_statements tz P passes :
  forall date_from date_to xs ls w,
    ready w ->
    statements (trace (fetch_data_loop tz P passes date_from date_to xs ls w).2) =
      statements (trace w) ++
      concat (map (day_statements tz (store w) (now w))
                (dates_from passes (date_from, date_to))).
Proof.
  induction passes as [|passes IH]; intros date_from date_to xs ls w Hr.
  - cbn. by rewrite app_nil_r.
  - cbn [fetch_data_loop dates_from map concat].
    destruct (fetch_label_ready tz (timestamp tz date_from) (timestamp tz date_to) true w Hr)
      as (w1 & Hl & Hev1).
    pose proof (fetch_label_statements tz (timestamp tz date_from) (timestamp tz date_to)
                  true w Hr) as Hs1.
    rewrite Hl in Hs1. cbn [snd] in Hs1.
    rewrite (bind_returns _ _ _ _ _ Hl).
    pose proof (evolves_ready _ _ Hev1 Hr) as Hr1.
    unfold day_statements at 1. cbn [fst snd].
    unfold label. 
    destruct (skipped tz true (timestamp tz date_to)) eqn:Hsk.
    { erewrite bind_returns by reflexivity. cbn [next_day fst snd].
      rewrite IH by done. rewrite Hs1, app_nil_r. cbn [app].
      f_equal. f_equal. apply map_ext. intros. by apply day_statements_evolves. }
    destruct (now w <? timestamp tz date_to) eqn:Hf.
    { erewrite bind_returns by reflexivity. cbn [next_day fst snd].
      rewrite IH by done. rewrite Hs1, app_nil_r. cbn [app].
      f_equal. f_equal. apply map_ext. intros. by apply day_statements_evolves. }
    destruct (Sql.day_rating_ratio (store w) (timestamp tz date_from) (timestamp tz date_to))
      as [l|].
    + destruct (fetch_x_data_evolves tz P (timestamp tz date_from) (timestamp tz date_to) w1 Hr1)
        as (w2 & Hx & Hev2).
      pose proof (fetch_x_data_statements tz P (timestamp tz date_from)
                    (timestamp tz date_to) w1 Hr1) as Hs2.
      rewrite Hx in Hs2. cbn [snd] in Hs2.
      rewrite bind_assoc, (bind_returns _ _ _ _ _ Hx).
      erewrite bind_returns by reflexivity. cbn [next_day fst snd].
      pose proof (evolves_trans _ _ _ Hev1 Hev2) as Hev.
      rewrite IH by (by eapply evolves_ready). rewrite Hs2, Hs1.
      rewrite <- !app_assoc. cbn [app]. f_equal. f_equal. f_equal.
      f_equal. apply map_ext. intros. by apply day_statements_evolves.
    + erewrite bind_returns by reflexivity. cbn [next_day fst snd].
      rewrite IH by done. rewrite Hs1. rewrite <- !app_assoc. cbn [app].
      f_equal. f_equal. f_equal. apply map_ext. intros. by apply day_statements_evolves.
Qed.

(** X12.  In a ready world [fetch_data] executes, day by day in order, no
    statement for a window that ends on a weekend day or after the clock,
    the statement of the label alone for a window without a label, and the
    statement of the label followed by the six of the record for a window
    with one.  So a statement of the record is executed only for a day
    whose label is there. *)
Theorem fetch_data_query_plan tz P date_from days w :
  ready w ->
  statements (trace (fetch_data tz P date_from days w).2) =
    statements (trace w) ++
    concat (map (fun i => day_statements tz (store w) (now w) (loop_dates date_from i))
              (seq 0 (Z.to_nat days))) /\
  forall i q params,
    (q, params) ∈ day_statements tz (store w) (now w) (loop_dates date_from i) ->
    q <> Sql.day_rating_sql ->
    (exists l, yields (fetch_label tz (day_window tz date_from i).1
                         (day_window tz date_from i).2 true) w (Some l)) /\
    Execute q params ∈ feature_statements (day_window tz date_from i).1
                         (day_window tz date_from i).2.
Proof.
  intros Hr. split.
  - unfold fetch_data. rewrite fetch_data_loop_statements by done.
    rewrite dates_from_iter, map_map. reflexivity.
  - intros i q params Hin Hq. unfold day_statements in Hin.
    fold (day_window tz date_from i).1 in Hin.
    change (timestamp tz (loop_dates date_from i).1) with (day_window tz date_from i).1 in Hin.
    change (timestamp tz (loop_dates date_from i).2) with (day_window tz date_from i).2 in Hin.
    cbn zeta in Hin.
    destruct (skipped tz true (day_window tz date_from i).2) eqn:Hs;
      [by apply elem_of_nil in Hin|].
    destruct (now w <? (day_window tz date_from i).2) eqn:Hf;
      [by apply elem_of_nil in Hin|].
    apply elem_of_cons in Hin as [[= -> ->] | Hin]; [done|].
    destruct (Sql.day_rating_ratio (store w) _ _) as [l|] eqn:El;
      [|by apply elem_of_nil in Hin].
    split.
    + exists l. apply fetch_label_yields; [done|]. unfold label. by rewrite Hs, Hf, El.
    + apply list_elem_of_omap in Hin as ([c|q' p'] & He & Heq); [done|].
      by injection Heq as -> ->.
Qed.

(** For the sample store, from Saturday: nothing for the window ending on
    Sunday, then the label statement for the window ending on Monday, then
    seven statements for Monday's own window. *)
Lemma fetch_data_query_plan_witness :
  let d := datetime (monday - 2) 0 0 in
  let w := sample_world (datetime (monday + 2) 0 0) in
  length (statements (trace (fetch_data utc sample_processing d 3 w).2)) = 8%nat.
Proof.
  cbn zeta.
  rewrite (proj1 (fetch_data_query_plan utc sample_processing (datetime (monday - 2) 0 0) 3
                    (sample_world (datetime (monday + 2) 0 0)) (sample_world_ready _))).
  vm_compute. reflexivity.
Defined.

(** X13.  [fetch_x_data] returns no partial record: whenever it returns, the six
    statements have all been executed, in their order, as the last events
    of the trace; and in a process that holds no handle and cannot make
    one, it raises the error of the constructor and executes nothing. *)
Theorem fetch_x_data_all_or_nothing tz P lo hi w :
  (forall x w',
     fetch_x_data tz P lo hi w = (Return x, w') ->
     exists es, trace w' = es ++ feature_statements lo hi /\
                statements (trace w') =
                  statements (trace w) ++ statements (feature_statements lo hi)) /\
  (forall e,
     DataFetcher__connection w = None -> configuration (environ w) = Raise e ->
     fetch_x_data tz P lo hi w = (Raise e, w)).
Proof.
  split; [|apply fetch_x_data_unconfigured].
  intros x w' H. destruct (ready_or_not w) as [Hr | [E [e Hc]]].
  - pose proof (fetch_x_data_statements tz P lo hi w Hr) as Hs.
    rewrite fetch_x_data_ready in H by done.
    apply (f_equal snd) in H. cbn [snd] in H. subst w'.
    exists (trace (connected w)). split; [apply record_all_trace|].
    by rewrite record_all_trace, statements_app, statements_connected.
  - rewrite (fetch_x_data_unconfigured tz P lo hi w e E Hc) in H. discriminate.
Qed.

(** The sample process executes the six statements; a process whose
    environment is empty raises the [TypeError] of [int(None)] and its
    trace stays empty. *)
Lemma fetch_x_data_all_or_nothing_witness :
  let lo := datetime monday 0 0 in
  let hi := datetime (monday + 1) 0 0 in
  let w := sample_world (datetime (monday + 2) 0 0) in
  let unconfigured :=
    {| environ := ∅; DataFetcher__connection := None; store := sample_store;
       now := datetime (monday + 2) 0 0; trace := [] |} in
  (exists es, trace (fetch_x_data utc sample_processing lo hi w).2
                = es ++ feature_statements lo hi /\
              statements (trace (fetch_x_data utc sample_processing lo hi w).2)
                = statements (trace w) ++ statements (feature_statements lo hi)) /\
  fetch_x_data utc sample_processing lo hi unconfigured =
    (Raise (TypeError "int() argument must be a string, a bytes-like object or a real number, not 'NoneType'"),
     unconfigured) /\
  trace (fetch_x_data utc sample_processing lo hi unconfigured).2 = [].
Proof.
  cbn zeta.
  assert (H : fetch_x_data utc sample_processing (datetime monday 0 0)
                (datetime (monday + 1) 0 0)
                {| environ := ∅; DataFetcher__connection := None; store := sample_store;
                   now := datetime (monday + 2) 0 0; trace := [] |} =
              (Raise (TypeError "int() argument must be a string, a bytes-like object or a real number, not 'NoneType'"),
               {| environ := ∅; DataFetcher__connection := None; store := sample_store;
                  now := datetime (monday + 2) 0 0; trace := [] |})).
  { apply (proj2 (fetch_x_data_all_or_nothing utc sample_processing (datetime monday 0 0)
              (datetime (monday + 1) 0 0) _)); [reflexivity|].
    vm_compute. reflexivity. }
  split; [|split; [exact H | by rewrite H]].
  exact (proj1 (fetch_x_data_all_or_nothing utc sample_processing (datetime monday 0 0)
           (datetime (monday + 1) 0 0) (sample_world (datetime (monday + 2) 0 0)))
           _ _ eq_refl).
Defined.

(** ** The rows handed to a processing function *)

Lemma reshape_rows_int tz rows :
  Forall has_int_timestamp rows ->
  exists rows',
    reshape_rows tz rows = Return rows' /\
    Forall2 (fun row row' =>
       exists ts,
         row !! "timestamp" = Some (VInt ts) /\
         row' !! "timestamp" = None /\
         row' !! "time_of_day" = Some (VStr (timestamp_to_time_of_day tz ts)) /\
         forall key, key <> "timestamp" -> key <> "time_of_day" -> row' !! key = row !! key)
      rows rows'.
Proof.
  induction 1 as [|row rows [ts Hts] _ (rows' & Hr & IH)].
  - exists []. split; [reflexivity | constructor].
  - eexists. cbn [reshape_rows]. unfold reshape_row. rewrite Hts, Hr.
    split; [reflexivity|]. constructor; [|exact IH].
    exists ts. split; [done|]. split; [apply lookup_delete_eq|].
    split.
    + rewrite lookup_delete_ne by done. apply lookup_insert_eq.
    + intros key H1 H2. rewrite lookup_delete_ne by done.
      by rewrite lookup_insert_ne.
Qed.

(** X14.  When every row of [fetchall()] has an integer [timestamp], the
    processing function receives as many rows in the same order, each
    without [timestamp], with the bucket of its timestamp under
    [time_of_day], and with every other column as the store gave it. *)
Theorem fetch_reshapes_every_row tz rows :
  Forall has_int_timestamp rows ->
  exists rows',
    fetch tz false rows = Return (FetchAll rows') /\
    length rows' = length rows /\
    Forall2 (fun row row' =>
       exists ts,
         row !! "timestamp" = Some (VInt ts) /\
         row' !! "timestamp" = None /\
         row' !! "time_of_day" = Some (VStr (timestamp_to_time_of_day tz ts)) /\
         forall key, key <> "timestamp" -> key <> "time_of_day" -> row' !! key = row !! key)
      rows rows'.
Proof.
  intros H. destruct (reshape_rows_int tz rows H) as (rows' & Hr & HF).
  exists rows'. split; [|split; [symmetry; by eapply Forall2_length | exact HF]].
  unfold fetch. destruct rows as [|row rows].
  - cbn in Hr. by injection Hr as <-.
  - cbn [has_timestamp]. inversion H as [|? ? [ts Hts] _]; subst.
    rewrite bool_decide_true by (rewrite Hts; eauto). by rewrite Hr.
Qed.

(** Two rows that also carry a channel, as the statement first written in
    the source would have returned them. *)
Lemma fetch_reshapes_every_row_witness :
  let rows : list dict :=
    [ <[ "timestamp" := VInt (datetime monday 8 30) ]> {[ "channel_name" := VStr "general" ]};
      <[ "timestamp" := VInt (datetime monday 15 0) ]> {[ "channel_name" := VStr "rant" ]} ] in
  exists rows',
    fetch utc false rows = Return (FetchAll rows') /\
    length rows' = length rows /\
    Forall2 (fun row row' =>
       exists ts,
         row !! "timestamp" = Some (VInt ts) /\
         row' !! "timestamp" = None /\
         row' !! "time_of_day" = Some (VStr (timestamp_to_time_of_day utc ts)) /\
         forall key, key <> "timestamp" -> key <> "time_of_day" -> row' !! key = row !! key)
      rows rows'.
Proof.
  apply (fetch_reshapes_every_row utc).
  repeat (constructor; [eexists; apply lookup_insert_eq|]). constructor.
Defined.

Lemma reshape_rows_missing tz pre row post :
  Forall has_int_timestamp pre -> row !! "timestamp" = None ->
  reshape_rows tz (pre ++ row :: post) = Raise (KeyError "timestamp").
Proof.
  intros Hpre Hrow. induction Hpre as [|r pre [ts Hts] _ IH].
  - cbn [app reshape_rows]. unfold reshape_row. by rewrite Hrow.
  - cbn [app reshape_rows]. unfold reshape_row at 1. by rewrite Hts, IH.
Qed.

(** X15.  Only the first row decides whether the rows are re-expressed.  With
    [only_one] nothing is re-expressed; an empty result and a result whose
    first row has no [timestamp] are handed on as they are, whatever the
    later rows hold; and when the first rows have an integer [timestamp] and
    a later row has none, the loop stops with [KeyError]. *)
Theorem fetch_first_row_decides tz :
  (forall rows, fetch tz true rows = Return (FetchOne (head rows))) /\
  fetch tz false [] = Return (FetchAll []) /\
  (forall row rest, row !! "timestamp" = None ->
     fetch tz false (row :: rest) = Return (FetchAll (row :: rest))) /\
  (forall first pre row post,
     has_int_timestamp first -> Forall has_int_timestamp pre ->
     row !! "timestamp" = None ->
     fetch tz false (first :: pre ++ row :: post) = Raise (KeyError "timestamp")).
Proof.
  assert (Hkey : forall first pre row post,
     has_int_timestamp first -> Forall has_int_timestamp pre ->
     row !! "timestamp" = None ->
     fetch tz false (first :: pre ++ row :: post) = Raise (KeyError "timestamp")).
  { intros first pre row post [ts Hts] Hpre Hrow. unfold fetch. cbn [has_timestamp].
    rewrite bool_decide_true by (rewrite Hts; eauto).
    change (first :: pre ++ row :: post) with ((first :: pre) ++ row :: post).
    assert (HF : Forall has_int_timestamp (first :: pre))
      by (constructor; [by exists ts | done]).
    by rewrite (reshape_rows_missing tz (first :: pre) row post HF Hrow). }
  split; [reflexivity|]. split; [reflexivity|]. split; [|exact Hkey].
  intros row rest H. unfold fetch. cbn [has_timestamp].
  rewrite bool_decide_false; [done|]. rewrite H. by intros [? ?].
Qed.

Lemma fetch_first_row_decides_witness :
  let plain : dict := {[ "count" := VInt 3 ]} in
  let stamped : dict := {[ "timestamp" := VInt (datetime monday 8 30) ]} in
  fetch utc false [plain; stamped] = Return (FetchAll [plain; stamped]) /\
  fetch utc false [stamped; plain] = Raise (KeyError "timestamp").
Proof.
  split.
  - refine (proj1 (proj2 (proj2 (fetch_first_row_decides utc))) _ _ _). reflexivity.
  - refine (proj2 (proj2 (proj2 (fetch_first_row_decides utc)))
              {[ "timestamp" := VInt (datetime monday 8 30) ]} []
              {[ "count" := VInt 3 ]} [] _ _ _).
    + eexists. apply lookup_singleton_eq.
    + constructor.
    + reflexivity.
Defined.

(** ** The keys of a record *)

(** X16.  The record [fetch_x_data] returns has exactly the key [weekday] and the
    keys the six processing functions give for the window: none is dropped
    and none is invented.  Where two give the same key, the one called later
    wins; in particular what [process_slack_negative_data], called last,
    gives is in the record as it gave it. *)
Theorem fetch_x_data_keys tz P lo hi w x :
  yields (fetch_x_data tz P lo hi) w x ->
  dom x =
    {[ "weekday" ]} ∪
    dom (process_slack_data P (slack_input tz (store w) lo hi)) ∪
    dom (process_slack_reaction_data P (reaction_input (store w) lo hi)) ∪
    dom (process_github_data P (one_row Sql.github_sql [lo; hi] (store w))) ∪
    dom (process_event_rating_data P (one_row Sql.event_rating_sql [lo; hi] (store w))) ∪
    dom (process_weather_data P (one_row Sql.yr_sql [lo; hi] (store w))) ∪
    dom (process_slack_negative_data P
           (one_row Sql.negative_slack_sql [lo; hi; lo; hi] (store w))) /\
  (forall key v,
     process_slack_negative_data P
       (one_row Sql.negative_slack_sql [lo; hi; lo; hi] (store w)) !! key = Some v ->
     x !! key = Some v) /\
  (forall key v,
     process_slack_negative_data P
       (one_row Sql.negative_slack_sql [lo; hi; lo; hi] (store w)) !! key = None ->
     process_weather_data P (one_row Sql.yr_sql [lo; hi] (store w)) !! key = Some v ->
     x !! key = Some v).
Proof.
  intros Hy. destruct (ready_or_not w) as [Hr | [E [e Hc]]].
  - apply fetch_x_data_yields in Hy; [|done]. subst x. unfold features.
    split; [|split].
    + rewrite !dom_union_L, dom_singleton_L. apply set_eq. intros key.
      rewrite !elem_of_union. tauto.
    + intros key v H. by apply lookup_union_Some_l.
    + intros key v Hn H. rewrite lookup_union_r by done. by apply lookup_union_Some_l.
  - unfold yields in Hy. rewrite (fetch_x_data_unconfigured tz P lo hi w e E Hc) in Hy.
    discriminate.
Qed.

Lemma fetch_x_data_keys_witness :
  let lo := datetime monday 0 0 in
  let hi := datetime (monday + 1) 0 0 in
  let w := sample_world (datetime (monday + 2) 0 0) in
  dom (features utc sample_processing sample_store lo hi) =
    {[ "weekday"; "early"; "midday"; "late"; "reactions"; "commits"; "event_ratio";
       "temp"; "prec"; "negative_ratio" ]}.
Proof.
  cbn zeta.
  rewrite (proj1 (fetch_x_data_keys utc sample_processing (datetime monday 0 0)
                    (datetime (monday + 1) 0 0) (sample_world (datetime (monday + 2) 0 0))
                    (features utc sample_processing sample_store (datetime monday 0 0)
                       (datetime (monday + 1) 0 0))
                    ltac:(apply fetch_x_data_yields;
                          [apply sample_world_ready | reflexivity]))).
  vm_compute. reflexivity.
Defined.

(** ** The negative-channel ratio *)


(** ** The number of parameters *)



(** ** The groups of the reaction statement *)





